(** * Machine lifecycle phases: a shallow embedding of
      [controllers/machine_controller_phases.go]

    The file follows the Go source function by function:
    [reconcilePhase], [reconcileExternal], [reconcileBootstrap] and
    [reconcileInfrastructure].  The Machine record is held in an explicit
    state together with the API server contents, the watch tracker and a
    trace of the calls made to collaborators that live outside the
    source file. *)

From Stdlib Require Import ZArith Ascii String.
From stdpp Require Import base option gmap strings list pretty.

Local Open Scope Z_scope.
Local Open Scope string_scope.

(** ** Strings *)

(** [strings.Contains(s, substr)]. *)
Fixpoint Contains (s substr : string) : bool :=
  if String.prefix substr s then true
  else match s with
       | EmptyString => false
       | String _ s' => Contains s' substr
       end.

(** [strings.Join(elems, sep)]. *)
Fixpoint Join (elems : list string) (sep : string) : string :=
  match elems with
  | [] => EmptyString
  | [e] => e
  | e :: rest => e +:+ sep +:+ Join rest sep
  end.

(** ** Time *)

(** [time.Duration]: a count of nanoseconds. *)
Definition Duration := Z.
Definition Second : Duration := 1000000000.

(** [time.Time], as the distance in nanoseconds from the zero instant. *)
Definition Time := Z.

(** [IsZero] on a [metav1.Time] pointer: true for a nil pointer and for the zero
    instant. *)
Definition IsZero (t : option Time) : bool :=
  match t with
  | None => true
  | Some t => Z.eqb t 0
  end.

(** [externalReadyWait = 30 * time.Second]. *)
Definition externalReadyWait : Duration := 30 * Second.

(** ** Data model *)

(** [corev1.ObjectReference], the fields the controller touches. *)
Record ObjectReference := mkRef {
  ref_APIVersion : string;
  ref_Kind : string;
  ref_Namespace : string;
  ref_Name : string
}.

(** [clusterv1.MachineAddress]. *)
Record MachineAddress := mkAddr {
  addr_Type : string;
  addr_Address : string
}.

(** [clusterv1.Bootstrap]. *)
Record Bootstrap := mkBootstrap {
  ConfigRef : option ObjectReference;
  Data : option string;
  DataSecretName : option string
}.

(** [clusterv1.MachineSpec]. *)
Record MachineSpec := mkSpec {
  ClusterName : string;
  SpecBootstrap : Bootstrap;
  InfrastructureRef : ObjectReference;
  ProviderID : option string;
  FailureDomain : option string
}.

(** [clusterv1.MachineStatus].  [Phase] is a Go string: the empty string
    is the unset phase and any text may be found there on entry. *)
Record MachineStatus := mkStatus {
  NodeRef : option ObjectReference;
  LastUpdated : option Time;
  Addresses : list MachineAddress;
  Phase : string;
  BootstrapReady : bool;
  InfrastructureReady : bool;
  FailureReason : option string;
  FailureMessage : option string
}.

(** [clusterv1.Machine]. *)
Record Machine := mkMachine {
  Name : string;
  Namespace : string;
  DeletionTimestamp : option Time;
  Spec : MachineSpec;
  Status : MachineStatus
}.

(** Field assignments [m.Status.X = v] and [m.Spec.X = v]. *)
Definition with_Status (f : MachineStatus -> MachineStatus) (m : Machine) : Machine :=
  mkMachine (Name m) (Namespace m) (DeletionTimestamp m) (Spec m) (f (Status m)).

Definition with_Spec (f : MachineSpec -> MachineSpec) (m : Machine) : Machine :=
  mkMachine (Name m) (Namespace m) (DeletionTimestamp m) (f (Spec m)) (Status m).

Definition set_Phase (p : string) (s : MachineStatus) : MachineStatus :=
  mkStatus (NodeRef s) (LastUpdated s) (Addresses s) p (BootstrapReady s)
           (InfrastructureReady s) (FailureReason s) (FailureMessage s).

Definition set_LastUpdated (t : option Time) (s : MachineStatus) : MachineStatus :=
  mkStatus (NodeRef s) t (Addresses s) (Phase s) (BootstrapReady s)
           (InfrastructureReady s) (FailureReason s) (FailureMessage s).

Definition set_Addresses (a : list MachineAddress) (s : MachineStatus) : MachineStatus :=
  mkStatus (NodeRef s) (LastUpdated s) a (Phase s) (BootstrapReady s)
           (InfrastructureReady s) (FailureReason s) (FailureMessage s).

Definition set_BootstrapReady (b : bool) (s : MachineStatus) : MachineStatus :=
  mkStatus (NodeRef s) (LastUpdated s) (Addresses s) (Phase s) b
           (InfrastructureReady s) (FailureReason s) (FailureMessage s).

Definition set_InfrastructureReady (b : bool) (s : MachineStatus) : MachineStatus :=
  mkStatus (NodeRef s) (LastUpdated s) (Addresses s) (Phase s) (BootstrapReady s)
           b (FailureReason s) (FailureMessage s).

Definition set_FailureReason (r : option string) (s : MachineStatus) : MachineStatus :=
  mkStatus (NodeRef s) (LastUpdated s) (Addresses s) (Phase s) (BootstrapReady s)
           (InfrastructureReady s) r (FailureMessage s).

Definition set_FailureMessage (msg : option string) (s : MachineStatus) : MachineStatus :=
  mkStatus (NodeRef s) (LastUpdated s) (Addresses s) (Phase s) (BootstrapReady s)
           (InfrastructureReady s) (FailureReason s) msg.

Definition set_SpecBootstrap (f : Bootstrap -> Bootstrap) (s : MachineSpec) : MachineSpec :=
  mkSpec (ClusterName s) (f (SpecBootstrap s)) (InfrastructureRef s) (ProviderID s)
         (FailureDomain s).

Definition set_ConfigRef (r : option ObjectReference) (b : Bootstrap) : Bootstrap :=
  mkBootstrap r (Data b) (DataSecretName b).

Definition set_Data (d : option string) (b : Bootstrap) : Bootstrap :=
  mkBootstrap (ConfigRef b) d (DataSecretName b).

Definition set_DataSecretName (d : option string) (b : Bootstrap) : Bootstrap :=
  mkBootstrap (ConfigRef b) (Data b) d.

Definition set_InfrastructureRef (r : ObjectReference) (s : MachineSpec) : MachineSpec :=
  mkSpec (ClusterName s) (SpecBootstrap s) r (ProviderID s) (FailureDomain s).

Definition set_ProviderID (p : option string) (s : MachineSpec) : MachineSpec :=
  mkSpec (ClusterName s) (SpecBootstrap s) (InfrastructureRef s) p (FailureDomain s).

Definition set_FailureDomain (d : option string) (s : MachineSpec) : MachineSpec :=
  mkSpec (ClusterName s) (SpecBootstrap s) (InfrastructureRef s) (ProviderID s) d.

(** ** Phases *)

(** Modelled from the spec: the [clusterv1.MachinePhase] constants of
    [api/v1alpha3], which the source file only names.  The spec lists the
    phases as Pending, Provisioning, Provisioned, Running, Failed and
    Deleting. *)
Definition MachinePhasePending : string := "Pending".
Definition MachinePhaseProvisioning : string := "Provisioning".
Definition MachinePhaseProvisioned : string := "Provisioned".
Definition MachinePhaseRunning : string := "Running".
Definition MachinePhaseFailed : string := "Failed".
Definition MachinePhaseDeleting : string := "Deleting".

(** Modelled from the spec: [SetTypedPhase] on [MachineStatus], the setter
    of the phase field ("the phase/timestamp fields" are all that the
    deriver writes). *)
Definition SetTypedPhase (p : string) (m : Machine) : Machine :=
  with_Status (set_Phase p) m.

(** One unconditional [if cond { body }] statement. *)
Definition when_ {A : Type} (cond : bool) (body : A -> A) (a : A) : A :=
  if cond then body a else a.

(** [reconcilePhase].  [now] is the value [metav1.Now()] yields if it is
    called. *)
Definition reconcilePhase (now : Time) (m : Machine) : Machine :=
  let originalPhase := Phase (Status m) in
  (* Set the phase to "pending" if nil. *)
  let m := when_ (String.eqb (Phase (Status m)) EmptyString)
                 (SetTypedPhase MachinePhasePending) m in
  (* Set the phase to "provisioning" if bootstrap is ready and the
     infrastructure isn't. *)
  let m := when_ (BootstrapReady (Status m) && negb (InfrastructureReady (Status m)))
                 (SetTypedPhase MachinePhaseProvisioning) m in
  (* Set the phase to "provisioned" if there is a NodeRef. *)
  let m := when_ (bool_decide (NodeRef (Status m) <> None))
                 (SetTypedPhase MachinePhaseProvisioned) m in
  (* Set the phase to "running" if there is a NodeRef field and
     infrastructure is ready. *)
  let m := when_ (bool_decide (NodeRef (Status m) <> None) && InfrastructureReady (Status m))
                 (SetTypedPhase MachinePhaseRunning) m in
  (* Set the phase to "failed" if any of Status.FailureReason or
     Status.FailureMessage is not-nil. *)
  let m := when_ (bool_decide (FailureReason (Status m) <> None)
                  || bool_decide (FailureMessage (Status m) <> None))
                 (SetTypedPhase MachinePhaseFailed) m in
  (* Set the phase to "deleting" if the deletion timestamp is set. *)
  let m := when_ (negb (IsZero (DeletionTimestamp m)))
                 (SetTypedPhase MachinePhaseDeleting) m in
  (* If the phase has changed, update the LastUpdated timestamp. *)
  when_ (negb (String.eqb (Phase (Status m)) originalPhase))
        (with_Status (set_LastUpdated (Some now))) m.

(** ** Errors *)

(** The error values the controller sees.  [withMessage] is what
    [errors.Wrapf] of [github.com/pkg/errors] builds; [errorString] is a
    leaf built by [errors.Errorf], [errors.New] or [fmt.Errorf];
    [StatusError] is the API server's status error with its reason;
    [RequeueAfterError] is the scheduled-retry signal of the [errors]
    package of this repository, and [ErrUnstructuredFieldNotFound] the
    sentinel of its [util] package. *)
Inductive error : Type :=
| StatusError (reason message : string)
| RequeueAfterError (RequeueAfter : Duration)
| ErrUnstructuredFieldNotFound
| errorString (msg : string)
| withMessage (cause : error) (msg : string).

(** [errors.Wrapf(err, format, args...)] for a non-nil [err], with the
    format already expanded to [msg]. *)
Definition Wrapf (err : error) (msg : string) : error := withMessage err msg.

(** [errors.Errorf(format, args...)], with the format already expanded. *)
Definition Errorf (msg : string) : error := errorString msg.

(** [errors.Cause]: unwrap as long as the error has a cause. *)
Fixpoint Cause (err : error) : error :=
  match err with
  | withMessage cause _ => Cause cause
  | _ => err
  end.

(** [metav1.StatusReasonNotFound]. *)
Definition StatusReasonNotFound : string := "NotFound".

(** [apierrors.IsNotFound]: the error is a status error whose reason is
    not-found. *)
Definition IsNotFound (err : error) : bool :=
  match err with
  | StatusError reason _ => String.eqb reason StatusReasonNotFound
  | _ => false
  end.

(** [err == util.ErrUnstructuredFieldNotFound]. *)
Definition is_ErrUnstructuredFieldNotFound (err : error) : bool :=
  match err with
  | ErrUnstructuredFieldNotFound => true
  | _ => false
  end.

(** The kind test a caller applies to tell the scheduled-retry signal
    from every other error: the cause is a [RequeueAfterError]. *)
Definition isRequeueAfter (err : error) : bool :=
  match Cause err with
  | RequeueAfterError _ => true
  | _ => false
  end.

(** Modelled from the spec: [capierrors.InvalidConfigurationMachineError],
    the "invalid-configuration error" the failure reason is set to; the
    constant is declared outside the source file. *)
Definition InvalidConfigurationMachineError : string := "InvalidConfiguration".

(** ** Group, version, kind *)

(** [schema.GroupVersionKind]. *)
Record GroupVersionKind := mkGVK {
  gvk_Group : string;
  gvk_Version : string;
  gvk_Kind : string
}.

(** Split at the first slash, if there is one. *)
Fixpoint cutSlash (s : string) : option (string * string) :=
  match s with
  | EmptyString => None
  | String c rest =>
      if Ascii.eqb c "/"%char then Some (EmptyString, rest)
      else match cutSlash rest with
           | Some (g, v) => Some (String c g, v)
           | None => None
           end
  end.

(** [schema.FromAPIVersionAndKind], with [schema.ParseGroupVersion]
    inlined: no slash gives the core group, one slash splits group from
    version, the empty text, a lone slash and more than one slash give
    the empty group and version. *)
Definition FromAPIVersionAndKind (apiVersion kind : string) : GroupVersionKind :=
  if String.eqb apiVersion EmptyString || String.eqb apiVersion "/"
  then mkGVK EmptyString EmptyString kind
  else match cutSlash apiVersion with
       | None => mkGVK EmptyString apiVersion kind
       | Some (g, v) =>
           match cutSlash v with
           | None => mkGVK g v kind
           | Some _ => mkGVK EmptyString EmptyString kind
           end
       end.

(** [GroupVersionKind.String], which [%v] prints. *)
Definition GVK_String (gvk : GroupVersionKind) : string :=
  gvk_Group gvk +:+ "/" +:+ gvk_Version gvk +:+ ", Kind=" +:+ gvk_Kind gvk.

(** [ref.GroupVersionKind()]. *)
Definition ref_GroupVersionKind (ref : ObjectReference) : GroupVersionKind :=
  FromAPIVersionAndKind (ref_APIVersion ref) (ref_Kind ref).

(** ** External objects *)

(** The schema-less content of an [unstructured.Unstructured]: what
    [map[string]interface{}] holds after JSON decoding. *)
#[local] Unset Elimination Schemes.
Inductive Value : Type :=
| VNil
| VBool (b : bool)
| VInt (z : Z)
| VString (s : string)
| VList (items : list Value)
| VMap (fields : list (string * Value)).
#[local] Set Elimination Schemes.

(** [metav1.OwnerReference]. *)
Record OwnerReference := mkOwner {
  owner_APIVersion : string;
  owner_Kind : string;
  owner_Name : string;
  owner_Controller : bool
}.

(** [unstructured.Unstructured].  The metadata the controller reads and
    writes through accessor methods is kept in fields of its own;
    [obj_Object] holds the rest of the document ([spec], [status]).
    [obj_Labels] is [None] where [GetLabels] returns a nil map. *)
Record Unstructured := mkObj {
  obj_APIVersion : string;
  obj_Kind : string;
  obj_Namespace : string;
  obj_Name : string;
  obj_Labels : option (gmap string string);
  obj_Annotations : gmap string string;
  obj_OwnerReferences : list OwnerReference;
  obj_DeletionTimestamp : option Time;
  obj_Object : list (string * Value)
}.

Definition GetLabels (obj : Unstructured) : option (gmap string string) :=
  obj_Labels obj.

(** [obj.SetLabels(labels)] for a map that has an entry. *)
Definition SetLabels (labels : gmap string string) (obj : Unstructured) : Unstructured :=
  mkObj (obj_APIVersion obj) (obj_Kind obj) (obj_Namespace obj) (obj_Name obj)
        (Some labels) (obj_Annotations obj) (obj_OwnerReferences obj)
        (obj_DeletionTimestamp obj) (obj_Object obj).

Definition GetName (obj : Unstructured) : string := obj_Name obj.

Definition GetDeletionTimestamp (obj : Unstructured) : option Time :=
  obj_DeletionTimestamp obj.

(** [obj.GroupVersionKind()]. *)
Definition obj_GroupVersionKind (obj : Unstructured) : GroupVersionKind :=
  FromAPIVersionAndKind (obj_APIVersion obj) (obj_Kind obj).

(** [clusterv1.ClusterLabelName]. *)
Definition ClusterLabelName : string := "cluster.x-k8s.io/cluster-name".

(** [clusterv1.Cluster], as far as the pause check reads it. *)
Record Cluster := mkCluster {
  cluster_Name : string;
  cluster_Paused : bool
}.

(** [external.ReconcileOutput]. *)
Record ReconcileOutput := mkOutput {
  Result : option Unstructured;
  Paused : bool
}.

(** ** The world around the controller *)

(** The key under which the API server stores an object: API version,
    kind, namespace and name. *)
Definition ObjectKey : Type := string * string * string * string.

Definition key_of (obj : Unstructured) : ObjectKey :=
  (obj_APIVersion obj, obj_Kind obj, obj_Namespace obj, obj_Name obj).

(** [r.Client], seen as the objects the API server holds. *)
Abbreviation Client := (gmap ObjectKey Unstructured).

(** [r.externalTracker]: the kinds a watch is registered for. *)
Abbreviation Tracker := (gset (string * string)).

(** [patch.Helper]: the baseline captured when the helper was made. *)
Record Helper := mkHelper {
  helper_before : Unstructured
}.

(** The collaborators the source file calls and does not define.  Each
    is a function of what the Go call reads, returning what it writes:
    a call that updates an argument in place returns the new value next
    to its error, a call that returns [(value, error)] returns one or the
    other. *)
Record Env := mkEnv {
  (* fmt's %q verb, strconv.Quote *)
  Quote : string -> string;
  (* the Error method of RequeueAfterError, in this repository's errors package *)
  RequeueAfterError_Error : Duration -> string;
  (* utilconversion.ConvertReferenceAPIContract(ctx, c, ref): may rewrite the reference *)
  ConvertReferenceAPIContract :
    Client -> ObjectReference -> ObjectReference * option error;
  (* external.Get(ctx, c, ref, namespace) *)
  external_Get : Client -> ObjectReference -> string -> error + Unstructured;
  (* annotations.IsPaused(cluster, obj) *)
  annotations_IsPaused : Cluster -> Unstructured -> bool;
  (* patch.NewHelper(obj, c) *)
  patch_NewHelper : Unstructured -> Client -> error + Helper;
  (* controllerutil.SetControllerReference(owner, obj, scheme): updates obj *)
  SetControllerReference : Machine -> Unstructured -> Unstructured * option error;
  (* patchHelper.Patch(ctx, obj): writes to the API server, refreshes obj *)
  helper_Patch : Helper -> Client -> Unstructured -> Client * Unstructured * option error;
  (* r.externalTracker.Watch(logger, obj, handler) *)
  tracker_Watch : Tracker -> Unstructured -> Tracker * option error;
  (* external.FailuresFrom(obj) *)
  external_FailuresFrom : Unstructured -> error + (string * string);
  (* external.IsReady(obj) *)
  external_IsReady : Unstructured -> error + bool;
  (* unstructured.NestedString(obj.Object, fields...) *)
  NestedString : list (string * Value) -> list string -> string * bool * option error;
  (* util.UnstructuredUnmarshalField(obj, &s, fields...) for a fresh string s *)
  UnstructuredUnmarshalField_string :
    Unstructured -> list string -> string * option error;
  (* util.UnstructuredUnmarshalField(obj, &addrs, fields...): updates addrs *)
  UnstructuredUnmarshalField_addresses :
    Unstructured -> list MachineAddress -> list string ->
    list MachineAddress * option error
}.

(** ** State, trace and the controller monad *)

(** The two references the callers hand to [reconcileExternal]; both
    point into the Machine's spec, so what is written through the pointer
    is written to the Machine. *)
Inductive RefPtr : Type :=
| ConfigRefPtr          (* m.Spec.Bootstrap.ConfigRef *)
| InfrastructureRefPtr. (* &m.Spec.InfrastructureRef *)

Definition load (ptr : RefPtr) (m : Machine) : option ObjectReference :=
  match ptr with
  | ConfigRefPtr => ConfigRef (SpecBootstrap (Spec m))
  | InfrastructureRefPtr => Some (InfrastructureRef (Spec m))
  end.

Definition store (ptr : RefPtr) (ref : ObjectReference) (m : Machine) : Machine :=
  match ptr with
  | ConfigRefPtr => with_Spec (set_SpecBootstrap (set_ConfigRef (Some ref))) m
  | InfrastructureRefPtr => with_Spec (set_InfrastructureRef ref) m
  end.

(** One entry of the trace: a call to a collaborator, or a log line. *)
Inductive Event : Type :=
| CallConvertReferenceAPIContract (ref : ObjectReference)
| CallGet (ref : ObjectReference) (namespace : string)
| CallIsPaused (obj : Unstructured)
| CallNewHelper (obj : Unstructured)
| CallSetControllerReference (obj : Unstructured)
| CallPatch (obj : Unstructured)
| CallWatch (obj : Unstructured)
| CallFailuresFrom (obj : Unstructured)
| CallIsReady (obj : Unstructured)
| CallNestedString (fields : list string)
| CallUnstructuredUnmarshalField (fields : list string)
| LogInfo (msg : string)
| LogError (err : error) (msg : string).

(** What a reconcile pass reads and writes: the Machine behind the
    pointer [m], the API server, the watch tracker, and the trace of
    calls so far (oldest first). *)
Record State := mkState {
  st_machine : Machine;
  st_client : Client;
  st_tracker : Tracker;
  st_trace : list Event
}.

Definition set_machine (f : Machine -> Machine) (st : State) : State :=
  mkState (f (st_machine st)) (st_client st) (st_tracker st) (st_trace st).

Definition set_client (c : Client) (st : State) : State :=
  mkState (st_machine st) c (st_tracker st) (st_trace st).

Definition set_tracker (t : Tracker) (st : State) : State :=
  mkState (st_machine st) (st_client st) t (st_trace st).

Definition record (e : Event) (st : State) : State :=
  mkState (st_machine st) (st_client st) (st_tracker st) (st_trace st ++ [e]).

(** How a Go function leaves: with a value and a nil error, with a
    non-nil error, or by the runtime panic of a nil pointer dereference. *)
Inductive Outcome (A : Type) : Type :=
| Ok (a : A)
| Err (err : error)
| Panic.
Arguments Ok {A} a.
Arguments Err {A} err.
Arguments Panic {A}.

(** A computation over the state.  The state that comes back is the
    state at the moment the function leaves, whichever way it leaves:
    writes made before an error stay made. *)
Definition M (A : Type) : Type := State -> Outcome A * State.

Definition ret {A : Type} (a : A) : M A := fun st => (Ok a, st).

Definition bind {A B : Type} (c : M A) (k : A -> M B) : M B := fun st =>
  match c st with
  | (Ok a, st') => k a st'
  | (Err err, st') => (Err err, st')
  | (Panic, st') => (Panic, st')
  end.

Declare Scope go_scope.
Delimit Scope go_scope with go.
Bind Scope go_scope with M.
Notation "x ← y ; z" := (bind y (fun x : _ => z))
  (at level 20, y at level 100, z at level 200, only parsing) : go_scope.
Notation "' x ← y ; z" := (bind y (fun x : _ => z))
  (at level 20, x pattern, y at level 100, z at level 200, only parsing) : go_scope.
Notation "x ;; z" := (bind x (fun _ => z))
  (at level 100, z at level 200, only parsing, right associativity) : go_scope.
Local Open Scope go_scope.

(** [return ..., err] with a non-nil [err]. *)
Definition throw {A : Type} (err : error) : M A := fun st => (Err err, st).

(** Run [c] and hand its error to the caller as a value, as
    [x, err := c(); if err != nil { ... }] does. *)
Definition attempt {A : Type} (c : M A) : M (error + A) := fun st =>
  match c st with
  | (Ok a, st') => (Ok (inr a), st')
  | (Err err, st') => (Ok (inl err), st')
  | (Panic, st') => (Panic, st')
  end.

(** Read the Machine behind [m]. *)
Definition get_machine : M Machine := fun st => (Ok (st_machine st), st).

(** Assign to a field of the Machine behind [m]. *)
Definition assign (f : Machine -> Machine) : M unit := fun st =>
  (Ok tt, set_machine f st).

(** Dereference a pointer that may be nil. *)
Definition deref {A : Type} (p : option A) : M A := fun st =>
  match p with
  | Some a => (Ok a, st)
  | None => (Panic, st)
  end.

(** [if cond { body }] in the monad. *)
Definition when (cond : bool) (body : M unit) : M unit :=
  if cond then body else ret tt.

(** Leave with [err] if it is non-nil. *)
Definition check (err : option error) : M unit :=
  match err with
  | Some e => throw e
  | None => ret tt
  end.

(** Leave with the error of a [(value, error)] pair, or go on with the
    value. *)
Definition lift {A : Type} (r : error + A) : M A :=
  match r with
  | inl err => throw err
  | inr a => ret a
  end.

Definition trace (e : Event) : M unit := fun st => (Ok tt, record e st).

(** ** The controller *)

Section Controller.

Context (env : Env).

(** [err.Error()].  A wrapped error prints its message, a colon and the
    message of its cause. *)
Fixpoint Error (err : error) : string :=
  match err with
  | StatusError _ message => message
  | RequeueAfterError d => RequeueAfterError_Error env d
  | ErrUnstructuredFieldNotFound => "field not found"
  | errorString msg => msg
  | withMessage cause msg => msg +:+ ": " +:+ Error cause
  end.

(** *** Calls to collaborators

    Each call is entered in the trace, applies the collaborator to the
    current state, keeps what the call wrote, and leaves with the call's
    error if it has one. *)

Definition call_ConvertReferenceAPIContract (ptr : RefPtr) : M unit :=
  m ← get_machine;
  ref ← deref (load ptr m);
  trace (CallConvertReferenceAPIContract ref);;
  fun st =>
    let '(ref', err) := ConvertReferenceAPIContract env (st_client st) ref in
    check err (set_machine (store ptr ref') st).

Definition call_Get (ref : ObjectReference) (namespace : string) : M Unstructured :=
  trace (CallGet ref namespace);;
  fun st => lift (external_Get env (st_client st) ref namespace) st.

Definition call_IsPaused (cluster : Cluster) (obj : Unstructured) : M bool :=
  trace (CallIsPaused obj);;
  ret (annotations_IsPaused env cluster obj).

Definition call_NewHelper (obj : Unstructured) : M Helper :=
  trace (CallNewHelper obj);;
  fun st => lift (patch_NewHelper env obj (st_client st)) st.

Definition call_SetControllerReference (obj : Unstructured) : M Unstructured :=
  trace (CallSetControllerReference obj);;
  m ← get_machine;
  let '(obj', err) := SetControllerReference env m obj in
  check err;;
  ret obj'.

Definition call_Patch (patchHelper : Helper) (obj : Unstructured) : M Unstructured :=
  trace (CallPatch obj);;
  fun st =>
    let '(c', obj', err) := helper_Patch env patchHelper (st_client st) obj in
    (check err;; ret obj') (set_client c' st).

Definition call_Watch (obj : Unstructured) : M unit :=
  trace (CallWatch obj);;
  fun st =>
    let '(t', err) := tracker_Watch env (st_tracker st) obj in
    check err (set_tracker t' st).

Definition call_FailuresFrom (obj : Unstructured) : M (string * string) :=
  trace (CallFailuresFrom obj);;
  lift (external_FailuresFrom env obj).

Definition call_IsReady (obj : Unstructured) : M bool :=
  trace (CallIsReady obj);;
  lift (external_IsReady env obj).

Definition call_NestedString (obj : list (string * Value)) (fields : list string)
  : M (string * bool * option error) :=
  trace (CallNestedString fields);;
  ret (NestedString env obj fields).

Definition call_UnmarshalField_string (obj : Unstructured) (fields : list string)
  : M (string * option error) :=
  trace (CallUnstructuredUnmarshalField fields);;
  ret (UnstructuredUnmarshalField_string env obj fields).

Definition call_UnmarshalField_addresses (obj : Unstructured) (fields : list string)
  : M (option error) :=
  trace (CallUnstructuredUnmarshalField fields);;
  m ← get_machine;
  let '(addrs, err) :=
    UnstructuredUnmarshalField_addresses env obj (Addresses (Status m)) fields in
  assign (with_Status (set_Addresses addrs));;
  ret err.

(** *** reconcileExternal *)

(** [reconcileExternal] handles generic unstructured objects referenced
    by a Machine. *)
Definition reconcileExternal (cluster : Cluster) (ref : RefPtr) : M ReconcileOutput :=
  call_ConvertReferenceAPIContract ref;;

  m ← get_machine;
  r ← deref (load ref m);
  got ← attempt (call_Get r (Namespace m));
  match got with
  | inl err =>
      if IsNotFound (Cause err) then
        throw (Wrapf (RequeueAfterError externalReadyWait)
                 ("could not find " +:+ GVK_String (ref_GroupVersionKind r)
                  +:+ " " +:+ Quote env (ref_Name r)
                  +:+ " for Machine " +:+ Quote env (Name m)
                  +:+ " in namespace " +:+ Quote env (Namespace m)
                  +:+ ", requeuing"))
      else throw err
  | inr obj =>
      (* if external ref is paused, return error. *)
      paused ← call_IsPaused cluster obj;
      if paused then
        trace (LogInfo "External object referenced is paused");;
        ret (mkOutput None true)
      else
        (* Initialize the patch helper. *)
        patchHelper ← call_NewHelper obj;

        (* Set external object ControllerReference to the Machine. *)
        obj ← call_SetControllerReference obj;

        (* Set the Cluster label. *)
        let labels := GetLabels obj in
        let labels := match labels with None => ∅ | Some labels => labels end in
        m ← get_machine;
        let labels := <[ClusterLabelName := ClusterName (Spec m)]> labels in
        let obj := SetLabels labels obj in

        (* Always attempt to Patch the external object. *)
        obj ← call_Patch patchHelper obj;

        (* Ensure we add a watcher to the external object. *)
        call_Watch obj;;

        (* Set failure reason and message, if any. *)
        '(failureReason, failureMessage) ← call_FailuresFrom obj;
        when (negb (String.eqb failureReason EmptyString))
             (assign (with_Status (set_FailureReason (Some failureReason))));;
        when (negb (String.eqb failureMessage EmptyString))
             (assign (with_Status (set_FailureMessage (Some
                ("Failure detected from referenced resource "
                 +:+ GVK_String (obj_GroupVersionKind obj)
                 +:+ " with name " +:+ Quote env (GetName obj)
                 +:+ ": " +:+ failureMessage)))));;

        ret (mkOutput (Some obj) false)
  end.

(** *** reconcileBootstrap *)

(** [reconcileBootstrap] reconciles the [Spec.Bootstrap.ConfigRef] object
    on a Machine. *)
Definition reconcileBootstrap (cluster : Cluster) : M unit :=
  m ← get_machine;
  if bool_decide (ConfigRef (SpecBootstrap (Spec m)) = None) then ret tt else

  (* Call generic external reconciler if we have an external reference. *)
  externalResult ← reconcileExternal cluster ConfigRefPtr;
  if Paused externalResult then ret tt else
  let bootstrapConfig := Result externalResult in

  (* If the bootstrap data is populated, set ready and return. *)
  m ← get_machine;
  if bool_decide (DataSecretName (SpecBootstrap (Spec m)) <> None) then
    assign (with_Status (set_BootstrapReady true))
  else

  (* If the bootstrap config is being deleted, return early. *)
  bootstrapConfig ← deref bootstrapConfig;
  if negb (IsZero (GetDeletionTimestamp bootstrapConfig)) then ret tt else

  (* Determine if the bootstrap provider is ready. *)
  ready ← call_IsReady bootstrapConfig;
  if negb ready then
    throw (Wrapf (RequeueAfterError externalReadyWait)
             ("Bootstrap provider for Machine " +:+ Quote env (Name m)
              +:+ " in namespace " +:+ Quote env (Namespace m)
              +:+ " is not ready, requeuing"))
  else

  (* Get and set the name of the secret containing the bootstrap data. *)
  '(secretName, _, err) ← call_NestedString (obj_Object bootstrapConfig)
                             ["status"; "dataSecretName"];
  match err with
  | Some err =>
      throw (Wrapf err
               ("failed to retrieve dataSecretName from bootstrap provider for Machine "
                +:+ Quote env (Name m) +:+ " in namespace " +:+ Quote env (Namespace m)))
  | None =>
      if String.eqb secretName EmptyString then
        throw (Errorf
                 ("retrieved empty dataSecretName from bootstrap provider for Machine "
                  +:+ Quote env (Name m) +:+ " in namespace " +:+ Quote env (Namespace m)))
      else
        assign (with_Spec (set_SpecBootstrap (set_Data None)));;
        assign (with_Spec (set_SpecBootstrap (set_DataSecretName (Some secretName))));;
        assign (with_Status (set_BootstrapReady true))
  end.

(** *** reconcileInfrastructure *)

(** [reconcileInfrastructure] reconciles the [Spec.InfrastructureRef]
    object on a Machine. *)
Definition reconcileInfrastructure (cluster : Cluster) : M unit :=
  (* Call generic external reconciler. *)
  infraReconcileResult ← attempt (reconcileExternal cluster InfrastructureRefPtr);
  match infraReconcileResult with
  | inl err =>
      m ← get_machine;
      when (InfrastructureReady (Status m) && Contains (Error err) "could not find")
        ((* Infra object went missing after the machine was up and running *)
         trace (LogError err "Machine infrastructure reference has been deleted after being ready, setting failure state");;
         assign (with_Status (set_FailureReason (Some InvalidConfigurationMachineError)));;
         assign (with_Status (set_FailureMessage (Some
           ("Machine infrastructure resource "
            +:+ GVK_String (ref_GroupVersionKind (InfrastructureRef (Spec m)))
            +:+ " with name " +:+ Quote env (ref_Name (InfrastructureRef (Spec m)))
            +:+ " has been deleted after being ready")))));;
      throw err
  | inr infraReconcileResult =>
      (* if the external object is paused, return without any further processing *)
      if Paused infraReconcileResult then ret tt else
      infraConfig ← deref (Result infraReconcileResult);

      if negb (IsZero (GetDeletionTimestamp infraConfig)) then ret tt else

      (* Determine if the infrastructure provider is ready. *)
      ready ← call_IsReady infraConfig;
      assign (with_Status (set_InfrastructureReady ready));;
      m ← get_machine;
      if negb ready then
        throw (Wrapf (RequeueAfterError externalReadyWait)
                 ("Infrastructure provider for Machine " +:+ Quote env (Name m)
                  +:+ " in namespace " +:+ Quote env (Namespace m)
                  +:+ " is not ready, requeuing"))
      else

      (* Get Spec.ProviderID from the infrastructure provider. *)
      '(providerID, err) ← call_UnmarshalField_string infraConfig ["spec"; "providerID"];
      match err with
      | Some err =>
          throw (Wrapf err
                   ("failed to retrieve Spec.ProviderID from infrastructure provider for Machine "
                    +:+ Quote env (Name m) +:+ " in namespace " +:+ Quote env (Namespace m)))
      | None =>
      if String.eqb providerID EmptyString then
        throw (Errorf
                 ("retrieved empty Spec.ProviderID from infrastructure provider for Machine "
                  +:+ Quote env (Name m) +:+ " in namespace " +:+ Quote env (Namespace m)))
      else

      (* Get and set Status.Addresses from the infrastructure provider. *)
      err ← call_UnmarshalField_addresses infraConfig ["status"; "addresses"];
      match err with
      | Some err' =>
          when (negb (is_ErrUnstructuredFieldNotFound err'))
            (throw (Wrapf err'
                      ("failed to retrieve addresses from infrastructure provider for Machine "
                       +:+ Quote env (Name m) +:+ " in namespace "
                       +:+ Quote env (Namespace m))))
      | None => ret tt
      end;;

      (* Get and set the failure domain from the infrastructure provider. *)
      '(failureDomain, err) ← call_UnmarshalField_string infraConfig ["spec"; "failureDomain"];
      match err with
      | Some err' =>
          if is_ErrUnstructuredFieldNotFound err' then ret tt (* no-op *)
          else
            throw (Wrapf err'
                     ("failed to failure domain from infrastructure provider for Machine "
                      +:+ Quote env (Name m) +:+ " in namespace "
                      +:+ Quote env (Namespace m)))
      | None =>
          assign (with_Spec (set_FailureDomain (Some failureDomain)))
      end;;

      assign (with_Spec (set_ProviderID (Some providerID)))
      end
  end.

End Controller.

(** ** A reference environment

    One concrete choice of the collaborators, used to run the controller
    on explicit Machines: the API server is the map of objects, a
    reference resolves by key, and the provider contract is read from
    the conventional paths of the document. *)

Definition lookup_field (fields : list (string * Value)) (k : string) : option Value :=
  snd <$> List.find (fun kv => String.eqb (fst kv) k) fields.

(** Modelled from the spec: the Structural Accessor's walk
    [unstructured.NestedFieldNoCopy] ("[get(object, path...) -> (value,
    found)]"; an absent path is a checked outcome, a path through a value
    of the wrong shape is a hard error). *)
Fixpoint NestedFieldNoCopy (val : Value) (fields : list string)
  : Value * bool * option error :=
  match fields with
  | [] => (val, true, None)
  | field :: rest =>
      match val with
      | VNil => (VNil, false, None)
      | VMap m =>
          match lookup_field m field with
          | Some v => NestedFieldNoCopy v rest
          | None => (VNil, false, None)
          end
      | _ => (VNil, false, Some (errorString ("accessor error: expected map at " +:+ field)))
      end
  end.

(** Modelled from the spec: [unstructured.NestedString], the string read
    of the Structural Accessor. *)
Definition sim_NestedString (obj : list (string * Value)) (fields : list string)
  : string * bool * option error :=
  match NestedFieldNoCopy (VMap obj) fields with
  | (_, _, Some err) => (EmptyString, false, Some err)
  | (_, false, None) => (EmptyString, false, None)
  | (VString s, true, None) => (s, true, None)
  | (_, true, None) =>
      (EmptyString, false,
       Some (errorString ("accessor error: expected string at ." +:+ Join fields ".")))
  end.

(** Modelled from the spec: the boolean read of the Structural Accessor. *)
Definition sim_NestedBool (obj : list (string * Value)) (fields : list string)
  : bool * bool * option error :=
  match NestedFieldNoCopy (VMap obj) fields with
  | (_, _, Some err) => (false, false, Some err)
  | (_, false, None) => (false, false, None)
  | (VBool b, true, None) => (b, true, None)
  | (_, true, None) =>
      (false, false,
       Some (errorString ("accessor error: expected bool at ." +:+ Join fields ".")))
  end.

(** Modelled from the spec: [external.IsReady], "a structural check (e.g.
    a boolean status field)" on [status.ready]. *)
Definition sim_IsReady (obj : Unstructured) : error + bool :=
  match sim_NestedBool (obj_Object obj) ["status"; "ready"] with
  | (_, _, Some err) =>
      inl (Wrapf err ("failed to determine " +:+ GVK_String (obj_GroupVersionKind obj)
                      +:+ " readiness"))
  | (ready, found, None) => inr (ready && found)
  end.

(** Modelled from the spec: [external.FailuresFrom], reading
    [status.failureReason] and [status.failureMessage]. *)
Definition sim_FailuresFrom (obj : Unstructured) : error + (string * string) :=
  match sim_NestedString (obj_Object obj) ["status"; "failureReason"] with
  | (_, _, Some err) => inl (Wrapf err "failed to determine failureReason")
  | (failureReason, _, None) =>
      match sim_NestedString (obj_Object obj) ["status"; "failureMessage"] with
      | (_, _, Some err) => inl (Wrapf err "failed to determine failureMessage")
      | (failureMessage, _, None) => inr (failureReason, failureMessage)
      end
  end.

(** Modelled from the spec: [util.UnstructuredUnmarshalField] into a
    string; it "returns a typed field-not-found signal distinguishable
    from a real read error". *)
Definition sim_UnmarshalField_string (obj : Unstructured) (fields : list string)
  : string * option error :=
  match NestedFieldNoCopy (VMap (obj_Object obj)) fields with
  | (_, _, Some err) => (EmptyString, Some (Wrapf err "failed to retrieve field"))
  | (_, false, None) | (VNil, true, None) => (EmptyString, Some ErrUnstructuredFieldNotFound)
  | (VString s, true, None) => (s, None)
  | (_, true, None) => (EmptyString, Some (errorString "failed to unmarshal field value"))
  end.

Definition address_of (v : Value) : option MachineAddress :=
  match v with
  | VMap fields =>
      match lookup_field fields "type", lookup_field fields "address" with
      | Some (VString t), Some (VString a) => Some (mkAddr t a)
      | _, _ => None
      end
  | _ => None
  end.

(** Modelled from the spec: [util.UnstructuredUnmarshalField] into the
    address list, which an absent field leaves as it was. *)
Definition sim_UnmarshalField_addresses (obj : Unstructured)
    (old : list MachineAddress) (fields : list string)
  : list MachineAddress * option error :=
  match NestedFieldNoCopy (VMap (obj_Object obj)) fields with
  | (_, _, Some err) => (old, Some (Wrapf err "failed to retrieve field"))
  | (_, false, None) | (VNil, true, None) => (old, Some ErrUnstructuredFieldNotFound)
  | (VList items, true, None) =>
      match mapM address_of items with
      | Some addrs => (addrs, None)
      | None => (old, Some (errorString "failed to unmarshal field value"))
      end
  | (_, true, None) => (old, Some (errorString "failed to unmarshal field value"))
  end.

(** Modelled from the spec: the Gateway's
    "[get(gvk, namespace, name) -> object | NotFound]". *)
Definition sim_Get (c : Client) (ref : ObjectReference) (namespace : string)
  : error + Unstructured :=
  match c !! (ref_APIVersion ref, ref_Kind ref, namespace, ref_Name ref) with
  | Some obj => inr obj
  | None =>
      inl (Wrapf (StatusError StatusReasonNotFound (ref_Name ref +:+ " not found"))
                 ("failed to retrieve " +:+ ref_Kind ref +:+ " external object "
                  +:+ namespace +:+ "/" +:+ ref_Name ref))
  end.

Definition PausedAnnotation : string := "cluster.x-k8s.io/paused".

(** Modelled from the spec: the pause capability, "a capability check
    against the parent's pause state and the object's own annotations". *)
Definition sim_IsPaused (cluster : Cluster) (obj : Unstructured) : bool :=
  cluster_Paused cluster || bool_decide (is_Some (obj_Annotations obj !! PausedAnnotation)).

Definition machine_owner (m : Machine) : OwnerReference :=
  mkOwner "cluster.x-k8s.io/v1alpha3" "Machine" (Name m) true.

Definition same_owner (a b : OwnerReference) : bool :=
  String.eqb (owner_APIVersion a) (owner_APIVersion b)
  && String.eqb (owner_Kind a) (owner_Kind b)
  && String.eqb (owner_Name a) (owner_Name b).

Definition SetOwnerReferences (refs : list OwnerReference) (obj : Unstructured)
  : Unstructured :=
  mkObj (obj_APIVersion obj) (obj_Kind obj) (obj_Namespace obj) (obj_Name obj)
        (obj_Labels obj) (obj_Annotations obj) refs
        (obj_DeletionTimestamp obj) (obj_Object obj).

(** Modelled from the spec: "set a controller-owner link from the object
    to the parent; idempotent"; an object that another controller owns is
    refused. *)
Definition sim_SetControllerReference (m : Machine) (obj : Unstructured)
  : Unstructured * option error :=
  let owner := machine_owner m in
  if existsb (fun o => owner_Controller o && negb (same_owner o owner))
             (obj_OwnerReferences obj)
  then (obj, Some (errorString ("Object " +:+ obj_Name obj
                                +:+ " is already owned by another controller")))
  else
    (SetOwnerReferences
       (owner :: List.filter (fun o => negb (same_owner o owner)) (obj_OwnerReferences obj))
       obj,
     None).

(** Modelled from the spec: the Patch Applier's
    "[patch(object, baseline) -> ok | Conflict | IOError]", here a write
    of the object under its key, refused when the object is gone. *)
Definition sim_Patch (h : Helper) (c : Client) (obj : Unstructured)
  : Client * Unstructured * option error :=
  match c !! key_of obj with
  | Some _ => (<[key_of obj := obj]> c, obj, None)
  | None => (c, obj, Some (StatusError StatusReasonNotFound (obj_Name obj +:+ " not found")))
  end.

(** Modelled from the spec: the Watch Registrar's
    "[ensureWatch(sourceKind, ownerKind) -> ok]", idempotent. *)
Definition sim_Watch (t : Tracker) (obj : Unstructured) : Tracker * option error :=
  ({[ (obj_APIVersion obj, obj_Kind obj) ]} ∪ t, None).

(** The double-quote character. *)
Definition dquote : string := String "034"%char EmptyString.

(** Whole seconds of a duration, as [time.Duration] prints them below a
    minute. *)
Definition sim_RequeueAfterError_Error (d : Duration) : string :=
  "requeue in: " +:+ pretty (d / Second) +:+ "s".

Definition simEnv : Env := {|
  Quote := fun s => dquote +:+ s +:+ dquote;
  RequeueAfterError_Error := sim_RequeueAfterError_Error;
  ConvertReferenceAPIContract := fun _ ref => (ref, None);
  external_Get := sim_Get;
  annotations_IsPaused := sim_IsPaused;
  patch_NewHelper := fun obj _ => inr (mkHelper obj);
  SetControllerReference := sim_SetControllerReference;
  helper_Patch := sim_Patch;
  tracker_Watch := sim_Watch;
  external_FailuresFrom := sim_FailuresFrom;
  external_IsReady := sim_IsReady;
  NestedString := sim_NestedString;
  UnstructuredUnmarshalField_string := sim_UnmarshalField_string;
  UnstructuredUnmarshalField_addresses := sim_UnmarshalField_addresses
|}.

(** ** Sample Machines and provider objects *)

Definition infraRef : ObjectReference :=
  mkRef "infrastructure.cluster.x-k8s.io/v1alpha3" "InfrastructureMachine"
        "default" "infra-config1".

Definition bootstrapRef : ObjectReference :=
  mkRef "bootstrap.cluster.x-k8s.io/v1alpha3" "BootstrapMachine"
        "default" "bootstrap-config1".

Definition emptyStatus : MachineStatus :=
  mkStatus None None [] EmptyString false false None None.

(** A Machine named [machine-test] in namespace [default] with both
    references set. *)
Definition sampleMachine (secret : option string) (status : MachineStatus) : Machine :=
  mkMachine "machine-test" "default" None
    (mkSpec "test-cluster" (mkBootstrap (Some bootstrapRef) None secret) infraRef None None)
    status.

(** The provider object a reference resolves to, with the given
    annotations and [spec]/[status] content. *)
Definition providerObject (ref : ObjectReference) (annotations : gmap string string)
    (content : list (string * Value)) : Unstructured :=
  mkObj (ref_APIVersion ref) (ref_Kind ref) "default" (ref_Name ref)
        None annotations [] None content.

Definition infraObject (ready : bool) (providerID : string) : Unstructured :=
  providerObject infraRef ∅
    [("spec", VMap [("providerID", VString providerID)]);
     ("status", VMap [("ready", VBool ready)])].

Definition bootstrapObject (ready : bool) (secret : string) : Unstructured :=
  providerObject bootstrapRef ∅
    [("status", VMap [("ready", VBool ready); ("dataSecretName", VString secret)])].

Definition pausedObject (ref : ObjectReference) : Unstructured :=
  providerObject ref {[ PausedAnnotation := EmptyString ]} [].

Definition store_of (objs : list Unstructured) : Client :=
  list_to_map ((fun o => (key_of o, o)) <$> objs).

Definition initialState (m : Machine) (objs : list Unstructured) : State :=
  mkState m (store_of objs) ∅ [].

Definition sampleCluster : Cluster := mkCluster "test-cluster" false.

(** A Machine whose infrastructure was ready and whose provider object is
    gone from the API server. *)
Definition stateInfraVanished : State :=
  initialState (sampleMachine None (set_InfrastructureReady true emptyStatus)) [].

(** A Machine whose infrastructure was ready and whose provider now
    reports not ready. *)
Definition stateInfraNotReady : State :=
  initialState (sampleMachine None (set_InfrastructureReady true emptyStatus))
               [infraObject false "aws:///i-123"].


(** A Machine that already names its bootstrap secret, with a bootstrap
    provider that is not ready. *)
Definition stateBootstrapSecret : State :=
  initialState (sampleMachine (Some "secret-0") emptyStatus)
               [bootstrapObject false EmptyString].

(** A Machine whose two provider objects carry the paused annotation. *)
Definition statePaused : State :=
  initialState (sampleMachine None emptyStatus)
               [pausedObject bootstrapRef; pausedObject infraRef].

(** A fresh Machine with both providers ready: the bootstrap provider
    names the secret [secret-1], the infrastructure provider the id
    [aws:///i-123] and no addresses. *)
Definition stateProvidersReady : State :=
  initialState (sampleMachine None emptyStatus)
               [bootstrapObject true "secret-1"; infraObject true "aws:///i-123"].

(** A Machine with a recorded failure and both providers ready. *)
Definition stateFailed : State :=
  initialState
    (sampleMachine None
       (set_FailureMessage (Some "boom") (set_FailureReason (Some "Oops") emptyStatus)))
    [bootstrapObject true "secret-1"; infraObject true "aws:///i-123"].

(** A provider object once [reconcileExternal] has adopted it for the
    sample Machine: owned by the Machine and labelled with its cluster. *)
Definition adopted (obj : Unstructured) : Unstructured :=
  SetLabels {[ ClusterLabelName := "test-cluster" ]}
    (SetOwnerReferences [machine_owner (sampleMachine None emptyStatus)] obj).

(** Machines for the phase deriver: a running node, the same node with a
    recorded failure, and a failed Machine that is being deleted. *)
Definition nodeRef : ObjectReference := mkRef "v1" "Node" EmptyString "node-1".

Definition statusRunning : MachineStatus :=
  mkStatus (Some nodeRef) None [] EmptyString true true None None.

Definition machineRunning : Machine := sampleMachine None statusRunning.

Definition machineRunningFailed : Machine :=
  sampleMachine None (set_FailureReason (Some "Oops") statusRunning).

Definition machineFailedDeleting : Machine :=
  mkMachine "machine-test" "default" (Some 1700000000)
    (Spec machineRunningFailed) (Status machineRunningFailed).

(** ** Vocabulary of the statements *)

(** A recorded failure stays recorded: a failure field that is non-nil in
    [m] is non-nil in [m']. *)
Definition failure_sticky (m m' : Machine) : Prop :=
  (FailureReason (Status m) <> None -> FailureReason (Status m') <> None)
  /\ (FailureMessage (Status m) <> None -> FailureMessage (Status m') <> None).

(** [m'] differs from [m] at most in the two references of the spec and
    in the two failure fields of the status. *)
Definition same_but_refs_and_failures (m m' : Machine) : Prop :=
  Name m' = Name m
  /\ Namespace m' = Namespace m
  /\ DeletionTimestamp m' = DeletionTimestamp m
  /\ ClusterName (Spec m') = ClusterName (Spec m)
  /\ Data (SpecBootstrap (Spec m')) = Data (SpecBootstrap (Spec m))
  /\ DataSecretName (SpecBootstrap (Spec m')) = DataSecretName (SpecBootstrap (Spec m))
  /\ ProviderID (Spec m') = ProviderID (Spec m)
  /\ FailureDomain (Spec m') = FailureDomain (Spec m)
  /\ NodeRef (Status m') = NodeRef (Status m)
  /\ LastUpdated (Status m') = LastUpdated (Status m)
  /\ Addresses (Status m') = Addresses (Status m)
  /\ Phase (Status m') = Phase (Status m)
  /\ BootstrapReady (Status m') = BootstrapReady (Status m)
  /\ InfrastructureReady (Status m') = InfrastructureReady (Status m).

(** The trace entries of the provider readiness check and of the read of
    a string field of the provider object. *)
Definition readiness_event (e : Event) : bool :=
  match e with
  | CallIsReady _ | CallNestedString _ => true
  | _ => false
  end.

(** The trace entries of a write to the external object: the owner
    link, the patch, the watch registration. *)
Definition mutation_event (e : Event) : bool :=
  match e with
  | CallNewHelper _ | CallSetControllerReference _ | CallPatch _ | CallWatch _ => true
  | _ => false
  end.

(** A computation keeps the relation [R] between the state it starts
    from and the state it leaves, however it leaves. *)
Definition preserves {A : Type} (R : State -> State -> Prop) (c : M A) : Prop :=
  forall st, R st (snd (c st)).

(** The trace only grows, and by entries on which [p] is false. *)
Definition trace_grows_without (p : Event -> bool) (st st' : State) : Prop :=
  exists evs : list Event,
    st_trace st' = (st_trace st ++ evs)%list
    /\ forallb (fun e => negb (p e)) evs = true.

(** A relation on Machines, read on the Machine of the state. *)
Definition on_machine (R : Machine -> Machine -> Prop) (st st' : State) : Prop :=
  R (st_machine st) (st_machine st').

(** The text of the error [reconcileExternal] returns for a reference
    that is not found: the kind with its group and version, the quoted
    name of the reference, the quoted name of the Machine and the quoted
    namespace the object was looked up in. *)
Definition could_not_find (env : Env) (ref : ObjectReference) (m : Machine) : string :=
  "could not find " +:+ GVK_String (ref_GroupVersionKind ref)
  +:+ " " +:+ Quote env (ref_Name ref)
  +:+ " for Machine " +:+ Quote env (Name m)
  +:+ " in namespace " +:+ Quote env (Namespace m)
  +:+ ", requeuing".

(** The phase as the spec words it, "last matching rule wins": the
    rules are tried from the last to the first and the first that
    matches gives the phase; with no match an unset phase is Pending and
    a set phase stays. *)
Definition derive (m : Machine) : string :=
  if negb (IsZero (DeletionTimestamp m)) then MachinePhaseDeleting
  else if bool_decide (FailureReason (Status m) <> None)
          || bool_decide (FailureMessage (Status m) <> None) then MachinePhaseFailed
  else if bool_decide (NodeRef (Status m) <> None) && InfrastructureReady (Status m)
       then MachinePhaseRunning
  else if bool_decide (NodeRef (Status m) <> None) then MachinePhaseProvisioned
  else if BootstrapReady (Status m) && negb (InfrastructureReady (Status m))
       then MachinePhaseProvisioning
  else if String.eqb (Phase (Status m)) EmptyString then MachinePhasePending
  else Phase (Status m).

(** ** Vocabulary of the further statements *)

(** [reconcileExternal] went all the way: it returned an output that is
    not paused. *)
Definition succeeded (o : Outcome ReconcileOutput) : bool :=
  match o with
  | Ok out => negb (Paused out)
  | _ => false
  end.

(** The name of the collaborator or logger method behind a trace
    entry. *)
Definition event_name (e : Event) : string :=
  match e with
  | CallConvertReferenceAPIContract _ => "ConvertReferenceAPIContract"
  | CallGet _ _ => "Get"
  | CallIsPaused _ => "IsPaused"
  | CallNewHelper _ => "NewHelper"
  | CallSetControllerReference _ => "SetControllerReference"
  | CallPatch _ => "Patch"
  | CallWatch _ => "Watch"
  | CallFailuresFrom _ => "FailuresFrom"
  | CallIsReady _ => "IsReady"
  | CallNestedString _ => "NestedString"
  | CallUnstructuredUnmarshalField _ => "UnstructuredUnmarshalField"
  | LogInfo _ => "Info"
  | LogError _ _ => "Error"
  end.

(** The calls of a complete [reconcileExternal], in the order of the
    source, and the calls of one that stops at a paused object. *)
Definition full_protocol : list string :=
  ["ConvertReferenceAPIContract"; "Get"; "IsPaused"; "NewHelper";
   "SetControllerReference"; "Patch"; "Watch"; "FailuresFrom"].

Definition paused_protocol : list string :=
  ["ConvertReferenceAPIContract"; "Get"; "IsPaused"; "Info"].

(** The fields of the Machine that none of the three reconcilers
    writes. *)
Definition identity_untouched (m m' : Machine) : Prop :=
  Name m' = Name m
  /\ Namespace m' = Namespace m
  /\ DeletionTimestamp m' = DeletionTimestamp m
  /\ ClusterName (Spec m') = ClusterName (Spec m)
  /\ NodeRef (Status m') = NodeRef (Status m)
  /\ Phase (Status m') = Phase (Status m)
  /\ LastUpdated (Status m') = LastUpdated (Status m).

(** The fields [reconcileInfrastructure] works on. *)
Definition infrastructure_untouched (m m' : Machine) : Prop :=
  InfrastructureRef (Spec m') = InfrastructureRef (Spec m)
  /\ ProviderID (Spec m') = ProviderID (Spec m)
  /\ FailureDomain (Spec m') = FailureDomain (Spec m)
  /\ Addresses (Status m') = Addresses (Status m)
  /\ InfrastructureReady (Status m') = InfrastructureReady (Status m).

(** The fields [reconcileBootstrap] works on. *)
Definition bootstrap_untouched (m m' : Machine) : Prop :=
  SpecBootstrap (Spec m') = SpecBootstrap (Spec m)
  /\ BootstrapReady (Status m') = BootstrapReady (Status m).

(** A bootstrap-ready flag that is set stays set. *)
Definition bootstrap_ready_kept (m m' : Machine) : Prop :=
  BootstrapReady (Status m) = true -> BootstrapReady (Status m') = true.

(** A Machine marked bootstrap-ready names its data secret. *)
Definition ready_with_secret (m : Machine) : Prop :=
  BootstrapReady (Status m) = true -> DataSecretName (SpecBootstrap (Spec m)) <> None.

(** ** The reference environment with injected failures *)

(** The error, if any, each collaborator is made to return. *)
Record Faults := mkFaults {
  fault_Convert : option error;
  fault_Get : option error;
  fault_NewHelper : option error;
  fault_SetControllerReference : option error;
  fault_Patch : option error;
  fault_Watch : option error;
  fault_FailuresFrom : option error;
  fault_IsReady : option error
}.

Definition noFaults : Faults := mkFaults None None None None None None None None.

(** The reference environment, except that a collaborator with a fault
    returns that error and writes nothing. *)
Definition faultyEnv (f : Faults) : Env := {|
  Quote := Quote simEnv;
  RequeueAfterError_Error := RequeueAfterError_Error simEnv;
  ConvertReferenceAPIContract := fun _ ref => (ref, fault_Convert f);
  external_Get := fun c ref ns =>
    match fault_Get f with Some e => inl e | None => sim_Get c ref ns end;
  annotations_IsPaused := sim_IsPaused;
  patch_NewHelper := fun obj _ =>
    match fault_NewHelper f with Some e => inl e | None => inr (mkHelper obj) end;
  SetControllerReference := fun m obj =>
    match fault_SetControllerReference f with
    | Some e => (obj, Some e)
    | None => sim_SetControllerReference m obj
    end;
  helper_Patch := fun h c obj =>
    match fault_Patch f with Some e => (c, obj, Some e) | None => sim_Patch h c obj end;
  tracker_Watch := fun t obj =>
    match fault_Watch f with Some e => (t, Some e) | None => sim_Watch t obj end;
  external_FailuresFrom := fun obj =>
    match fault_FailuresFrom f with Some e => inl e | None => sim_FailuresFrom obj end;
  external_IsReady := fun obj =>
    match fault_IsReady f with Some e => inl e | None => sim_IsReady obj end;
  NestedString := sim_NestedString;
  UnstructuredUnmarshalField_string := sim_UnmarshalField_string;
  UnstructuredUnmarshalField_addresses := sim_UnmarshalField_addresses
|}.

(** The conversion of the reference is refused. *)
Definition convertFault : Faults :=
  mkFaults (Some (errorString "unsupported contract version")) None None None None None
           None None.

(** The fetch is refused for a reason other than not-found. *)
Definition forbidden : error := StatusError "Forbidden" "infra-config1 is forbidden".

Definition getFault : Faults :=
  mkFaults None (Some forbidden) None None None None None None.

(** The patch is answered with the API server's generic not-found
    text, although the object was fetched a moment before. *)
Definition patchRefused : error :=
  StatusError StatusReasonNotFound "the server could not find the requested resource".

Definition patchFault : Faults :=
  mkFaults None None None None (Some patchRefused) None None None.

(** The failure extraction cannot read the status of the object. *)
Definition malformed : error :=
  errorString "failed to determine failureReason: .status.failureReason accessor error".

Definition failuresFault : Faults :=
  mkFaults None None None None None None (Some malformed) None.

(** ** Further sample Machines and provider objects *)

(** A Machine without a bootstrap reference. *)
Definition machineNoBootstrap : Machine :=
  mkMachine "machine-test" "default" None
    (mkSpec "test-cluster" (mkBootstrap None None None) infraRef None None)
    emptyStatus.

(** A provider object that is being deleted. *)
Definition deletingObject (ref : ObjectReference) : Unstructured :=
  mkObj (ref_APIVersion ref) (ref_Kind ref) "default" (ref_Name ref)
        None ∅ [] (Some 1700000000)
        [("status", VMap [("ready", VBool true)])].

(** An infrastructure object whose provider reports a failure. *)
Definition failedInfraObject : Unstructured :=
  providerObject infraRef ∅
    [("status", VMap [("failureReason", VString "CreateError");
                      ("failureMessage", VString "quota exceeded")])].

(** An infrastructure object with a label of its own, a failure domain
    and one address. *)
Definition richInfraObject : Unstructured :=
  mkObj (ref_APIVersion infraRef) (ref_Kind infraRef) "default" (ref_Name infraRef)
        (Some {[ "tier" := "gold" ]}) ∅ [] None
        [("spec", VMap [("providerID", VString "aws:///i-123");
                        ("failureDomain", VString "us-east-1a")]);
         ("status", VMap [("ready", VBool true);
                          ("addresses",
                           VList [VMap [("type", VString "InternalIP");
                                        ("address", VString "10.0.0.1")]])])].

Definition stateFresh : State := initialState (sampleMachine None emptyStatus) [].

Definition stateNoBootstrap : State := initialState machineNoBootstrap [].

Definition stateBootstrapNotReady : State :=
  initialState (sampleMachine None emptyStatus) [bootstrapObject false EmptyString].

Definition stateBootstrapWasReady : State :=
  initialState (sampleMachine None (set_BootstrapReady true emptyStatus))
               [bootstrapObject false EmptyString].

Definition stateBootstrapEmptySecret : State :=
  initialState (sampleMachine None emptyStatus) [bootstrapObject true EmptyString].

Definition stateProvidersDeleting : State :=
  initialState (sampleMachine None (set_InfrastructureReady true emptyStatus))
               [deletingObject bootstrapRef; deletingObject infraRef].

Definition stateInfraFailure : State :=
  initialState (sampleMachine None emptyStatus) [failedInfraObject].

Definition stateInfraRich : State :=
  initialState (sampleMachine None emptyStatus) [richInfraObject].

Definition stateInfraWasReady : State :=
  initialState (sampleMachine None (set_InfrastructureReady true emptyStatus))
               [infraObject true "aws:///i-123"].

(** Machines for the phase deriver: a phase left over with no rule to
    renew it, a Machine under deletion, a node whose infrastructure is not
    ready, and a bootstrapped Machine without a node. *)
Definition machineStale : Machine :=
  sampleMachine None (mkStatus None (Some 1600000000) [] "Running" false false None None).

Definition machineDeleting : Machine :=
  mkMachine "machine-test" "default" (Some 1700000000)
    (Spec machineRunning) (Status machineRunning).

Definition machineNodeOnly : Machine :=
  sampleMachine None (mkStatus (Some nodeRef) None [] EmptyString true false None None).

Definition machineBootstrapped : Machine :=
  sampleMachine None (mkStatus None None [] EmptyString true false None None).

(** [richInfraObject] once adopted: its own label is kept next to the
    cluster label. *)
Definition adoptedRich : Unstructured :=
  SetLabels (<[ClusterLabelName := "test-cluster"]> {[ "tier" := "gold" ]})
    (SetOwnerReferences [machine_owner (sampleMachine None emptyStatus)] richInfraObject).

(** * Properties *)

(** ** Strings *)

Lemma app_String (c : ascii) (s t : string) : String c s +:+ t = String c (s +:+ t).
Proof. reflexivity. Qed.

Lemma prefix_app (s t : string) : String.prefix s (s +:+ t) = true.
Proof.
  induction s as [|a s IH].
  - destruct t; reflexivity.
  - rewrite app_String. simpl.
    destruct (Ascii.ascii_dec a a); [exact IH | contradiction].
Qed.

Lemma Contains_of_prefix (s sub : string) :
  String.prefix sub s = true -> Contains s sub = true.
Proof. destruct s; simpl; intros ->; reflexivity. Qed.

Lemma Contains_app_r (a s sub : string) :
  Contains s sub = true -> Contains (a +:+ s) sub = true.
Proof.
  intros H. induction a as [|c a IH]; [exact H|].
  rewrite app_String. change (Contains (String c (a +:+ s)) sub)
    with (if String.prefix sub (String c (a +:+ s)) then true else Contains (a +:+ s) sub).
  rewrite IH. destruct (String.prefix sub _); reflexivity.
Qed.

Lemma Contains_self (s : string) : Contains s s = true.
Proof.
  apply Contains_of_prefix. induction s as [|c s IH]; [reflexivity|].
  simpl. destruct (Ascii.ascii_dec c c); [exact IH | contradiction].
Qed.

Lemma prefix_app_l (sub s b : string) :
  String.prefix sub s = true -> String.prefix sub (s +:+ b) = true.
Proof.
  revert sub. induction s as [|c s IH]; intros sub H.
  - destruct sub; [|discriminate H]. destruct b; reflexivity.
  - rewrite app_String. destruct sub as [|c' sub]; [reflexivity|].
    simpl in *. revert H. destruct (Ascii.ascii_dec c' c); [apply IH | trivial].
Qed.

Lemma Contains_String (c : ascii) (s sub : string) :
  Contains (String c s) sub
  = if String.prefix sub (String c s) then true else Contains s sub.
Proof. reflexivity. Qed.

Lemma Contains_app_l (s b sub : string) :
  Contains s sub = true -> Contains (s +:+ b) sub = true.
Proof.
  induction s as [|c s IH]; intros H.
  - destruct sub; [|discriminate H].
    apply Contains_of_prefix. destruct (EmptyString +:+ b); reflexivity.
  - rewrite app_String, Contains_String. rewrite Contains_String in H.
    destruct (String.prefix sub (String c s)) eqn:E.
    + rewrite <- app_String, (prefix_app_l _ _ b E). reflexivity.
    + rewrite (IH H). destruct (String.prefix sub (String c (s +:+ b))); reflexivity.
Qed.

(** Find [sub] as one of the pieces of a concatenation. *)
Ltac contains :=
  solve [ apply Contains_self
        | apply Contains_app_l; contains
        | apply Contains_app_r; contains ].

Lemma gvk_Kind_FromAPIVersionAndKind (apiVersion kind : string) :
  gvk_Kind (FromAPIVersionAndKind apiVersion kind) = kind.
Proof.
  unfold FromAPIVersionAndKind.
  repeat match goal with
         | |- context [match ?x with _ => _ end] => destruct x
         end; reflexivity.
Qed.

(** ** The phase deriver *)

(** [reconcilePhase] computes the phase the spec describes and stamps
    the time when that phase is not the one found on entry. *)
Lemma reconcilePhase_derive (now : Time) (m : Machine) :
  reconcilePhase now m
  = when_ (negb (String.eqb (derive m) (Phase (Status m))))
          (with_Status (set_LastUpdated (Some now)))
          (SetTypedPhase (derive m) m).
Proof.
  destruct m as [n ns dt sp [nr lu ad ph br ir fr fm]].
  destruct ph as [|c ph], br, ir, nr as [nr|], fr as [fr|], fm as [fm|], dt as [[|t|t]|];
    reflexivity.
Qed.

Lemma derive_not_empty (m : Machine) : String.eqb (derive m) EmptyString = false.
Proof.
  unfold derive.
  repeat match goal with
         | |- context [if ?b then _ else _] => destruct b eqn:?
         end; try reflexivity; assumption.
Qed.

Lemma Phase_stamped (now : Time) (b : bool) (p : string) (m : Machine) :
  Phase (Status (when_ b (with_Status (set_LastUpdated (Some now))) (SetTypedPhase p m))) = p.
Proof. destruct b; reflexivity. Qed.

Lemma reconcilePhase_Phase (now : Time) (m : Machine) :
  Phase (Status (reconcilePhase now m)) = derive m.
Proof. rewrite reconcilePhase_derive. apply Phase_stamped. Qed.

Lemma derive_stamped (now : Time) (b : bool) (m : Machine) :
  derive (when_ b (with_Status (set_LastUpdated (Some now))) (SetTypedPhase (derive m) m))
  = derive m.
Proof.
  assert (H : forall p, String.eqb p EmptyString = false -> p = derive m ->
                        derive (SetTypedPhase p m) = p).
  { intros p Hp Hd. unfold derive at 1.
    cbn [SetTypedPhase with_Status set_Phase Status Phase DeletionTimestamp
         FailureReason FailureMessage NodeRef BootstrapReady InfrastructureReady].
    rewrite Hp, Hd. unfold derive.
    repeat match goal with
           | |- context [if ?b then _ else _] => destruct b eqn:?
           end; reflexivity || discriminate. }
  specialize (H (derive m) (derive_not_empty m) eq_refl).
  destruct b; exact H.
Qed.

(** C3. The phase derivation is deterministic and idempotent: deriving
    the phase again from a status it has already been applied to leaves
    the phase, and indeed the whole Machine, as it is; and the phase it
    derives does not depend on the clock. *)
Theorem reconcilePhase_idempotent (now now' : Time) (m : Machine) :
  Phase (Status (reconcilePhase now' (reconcilePhase now m)))
  = Phase (Status (reconcilePhase now m))
  /\ reconcilePhase now' (reconcilePhase now m) = reconcilePhase now m
  /\ Phase (Status (reconcilePhase now' m)) = Phase (Status (reconcilePhase now m)).
Proof.
  assert (Hd : derive (reconcilePhase now m) = derive m)
    by (rewrite reconcilePhase_derive; apply derive_stamped).
  split; [|split].
  - now rewrite !reconcilePhase_Phase.
  - rewrite (reconcilePhase_derive now'), Hd, reconcilePhase_Phase, String.eqb_refl.
    destruct (reconcilePhase now m) as [n ns dt sp [nr lu ad ph br ir fr fm]] eqn:E.
    apply (f_equal (fun x => Phase (Status x))) in E.
    rewrite reconcilePhase_Phase in E. cbn in E. rewrite E. reflexivity.
  - now rewrite !reconcilePhase_Phase.
Qed.

(** C4. The last-updated timestamp is written exactly when the derived
    phase differs from the phase on entry: a changed phase stamps the
    current time, an unchanged phase leaves the field as it was, and
    against a timestamp that is not already the current time the two
    events coincide. *)
Theorem reconcilePhase_LastUpdated (now : Time) (m : Machine) :
  (Phase (Status (reconcilePhase now m)) <> Phase (Status m) ->
   LastUpdated (Status (reconcilePhase now m)) = Some now)
  /\ (Phase (Status (reconcilePhase now m)) = Phase (Status m) ->
      LastUpdated (Status (reconcilePhase now m)) = LastUpdated (Status m))
  /\ (LastUpdated (Status m) <> Some now ->
      (Phase (Status (reconcilePhase now m)) <> Phase (Status m)
       <-> LastUpdated (Status (reconcilePhase now m)) <> LastUpdated (Status m))).
Proof.
  rewrite reconcilePhase_Phase, reconcilePhase_derive.
  destruct (String.eqb (derive m) (Phase (Status m))) eqn:E;
    [apply String.eqb_eq in E | apply String.eqb_neq in E]; cbn.
  - repeat split; intros; congruence.
  - repeat split; intros; congruence.
Qed.

(** Witness for C4: a Machine with an unset phase gets phase Pending and
    a fresh timestamp. *)
Lemma reconcilePhase_LastUpdated_witness :
  LastUpdated (Status (reconcilePhase 1700000100 (sampleMachine None emptyStatus)))
  = Some 1700000100.
Proof.
  apply (proj1 (reconcilePhase_LastUpdated 1700000100 (sampleMachine None emptyStatus))).
  vm_compute. discriminate.
Defined.

(** C5, as stated, fails: a Machine with a node reference, ready
    infrastructure and a recorded failure reason is derived Failed, not
    Running. *)
Lemma reconcilePhase_Running_counterexample :
  NodeRef (Status machineRunningFailed) <> None
  /\ InfrastructureReady (Status machineRunningFailed) = true
  /\ Phase (Status (reconcilePhase 1700000100 machineRunningFailed)) = MachinePhaseFailed
  /\ Phase (Status (reconcilePhase 1700000100 machineRunningFailed)) <> MachinePhaseRunning.
Proof. vm_compute. repeat split; discriminate. Qed.

(** C5, amended.  With a node reference and ready infrastructure the
    phase is Running whatever the entry phase and the bootstrap flag are,
    provided no failure is recorded and no deletion is requested: the
    Running rule overrides the Pending, Provisioning and Provisioned
    rules.  It is itself overridden by the two rules after it: with a
    failure reason or a failure message recorded and no deletion
    requested the phase is Failed, and with a deletion timestamp the
    phase is Deleting, in both cases whatever the node reference, the two
    ready flags and the entry phase are.  In particular a Machine that
    has a failure recorded and a deletion timestamp is Deleting. *)
Theorem reconcilePhase_last_rule_wins (now : Time) (m : Machine) :
  (NodeRef (Status m) <> None ->
   InfrastructureReady (Status m) = true ->
   FailureReason (Status m) = None ->
   FailureMessage (Status m) = None ->
   IsZero (DeletionTimestamp m) = true ->
   Phase (Status (reconcilePhase now m)) = MachinePhaseRunning)
  /\ (FailureReason (Status m) <> None \/ FailureMessage (Status m) <> None ->
      IsZero (DeletionTimestamp m) = true ->
      Phase (Status (reconcilePhase now m)) = MachinePhaseFailed)
  /\ (IsZero (DeletionTimestamp m) = false ->
      Phase (Status (reconcilePhase now m)) = MachinePhaseDeleting)
  /\ (FailureReason (Status m) <> None \/ FailureMessage (Status m) <> None ->
      IsZero (DeletionTimestamp m) = false ->
      Phase (Status (reconcilePhase now m)) = MachinePhaseDeleting).
Proof.
  rewrite reconcilePhase_Phase. unfold derive. repeat split.
  - intros Hn -> -> -> ->. cbn.
    rewrite bool_decide_eq_true_2 by assumption. reflexivity.
  - intros [H | H] ->; cbn.
    + rewrite (bool_decide_eq_true_2 _ H). reflexivity.
    + rewrite (bool_decide_eq_true_2 _ H), orb_true_r. reflexivity.
  - intros ->. reflexivity.
  - intros _ ->. reflexivity.
Qed.

(** Witness for C5: the running node is Running, the same node with a
    recorded failure is Failed, the running node under deletion is
    Deleting, and the failed Machine under deletion is Deleting. *)
Lemma reconcilePhase_last_rule_wins_witness :
  Phase (Status (reconcilePhase 1700000100 machineRunning)) = MachinePhaseRunning
  /\ Phase (Status (reconcilePhase 1700000100 machineRunningFailed)) = MachinePhaseFailed
  /\ Phase (Status (reconcilePhase 1700000100 machineDeleting)) = MachinePhaseDeleting
  /\ Phase (Status (reconcilePhase 1700000100 machineFailedDeleting)) = MachinePhaseDeleting.
Proof.
  split; [|split; [|split]].
  - apply (proj1 (reconcilePhase_last_rule_wins 1700000100 machineRunning));
      vm_compute; (reflexivity || discriminate).
  - apply (proj1 (proj2 (reconcilePhase_last_rule_wins 1700000100 machineRunningFailed)));
      [left|]; vm_compute; (reflexivity || discriminate).
  - apply (proj1 (proj2 (proj2 (reconcilePhase_last_rule_wins 1700000100 machineDeleting))));
      vm_compute; reflexivity.
  - apply (proj2 (proj2 (proj2 (reconcilePhase_last_rule_wins 1700000100
                                  machineFailedDeleting))));
      [left|]; vm_compute; (reflexivity || discriminate).
Defined.

(** ** Relations kept by every step *)

Section Preserves.

Context (R : State -> State -> Prop) `{!PreOrder R}.

Lemma preserves_ret {A} (a : A) : preserves R (ret a).
Proof. intros st. reflexivity. Qed.

Lemma preserves_throw {A} (err : error) : preserves R (@throw A err).
Proof. intros st. reflexivity. Qed.

Lemma preserves_get_machine : preserves R get_machine.
Proof. intros st. reflexivity. Qed.

Lemma preserves_deref {A} (p : option A) : preserves R (deref p).
Proof. intros st. destruct p; reflexivity. Qed.

Lemma preserves_check (err : option error) : preserves R (check err).
Proof. intros st. destruct err; reflexivity. Qed.

Lemma preserves_lift {A} (r : error + A) : preserves R (lift r).
Proof. intros st. destruct r; reflexivity. Qed.

Lemma preserves_bind {A B} (c : M A) (k : A -> M B) :
  preserves R c -> (forall a, preserves R (k a)) -> preserves R (bind c k).
Proof.
  intros Hc Hk st. unfold bind. specialize (Hc st).
  destruct (c st) as [[a| |] st']; cbn in *; try exact Hc.
  transitivity st'; [exact Hc | apply Hk].
Qed.

Lemma preserves_attempt {A} (c : M A) : preserves R c -> preserves R (attempt c).
Proof.
  intros Hc st. unfold attempt. specialize (Hc st).
  destruct (c st) as [[a| |] st']; exact Hc.
Qed.

Lemma preserves_when (b : bool) (c : M unit) : preserves R c -> preserves R (when b c).
Proof. intros Hc. destruct b; [exact Hc | apply preserves_ret]. Qed.

Lemma preserves_trace (e : Event) :
  (forall st, R st (record e st)) -> preserves R (trace e).
Proof. intros H st. apply H. Qed.

Lemma preserves_assign (f : Machine -> Machine) :
  (forall st, R st (set_machine f st)) -> preserves R (assign f).
Proof. intros H st. apply H. Qed.

(** A collaborator that reads the state and writes nothing. *)
Lemma preserves_read {A} (f : State -> error + A) :
  preserves R (fun st => lift (f st) st).
Proof. intros st. cbn. destruct (f st); reflexivity. Qed.

End Preserves.

(** The relations of the statements are preorders. *)

Lemma on_machine_PreOrder (R : Machine -> Machine -> Prop) :
  PreOrder R -> PreOrder (on_machine R).
Proof.
  intros [Hr Ht]. split.
  - intros st. apply Hr.
  - intros x y z. apply Ht.
Qed.

Lemma failure_sticky_PreOrder : PreOrder failure_sticky.
Proof.
  split.
  - intros m. split; auto.
  - intros x y z [H1 H2] [H3 H4]. split; auto.
Qed.

Lemma same_but_refs_and_failures_PreOrder : PreOrder same_but_refs_and_failures.
Proof.
  split.
  - intros m. repeat split.
  - intros x y z H1 H2. unfold same_but_refs_and_failures in *.
    repeat match goal with H : _ /\ _ |- _ => destruct H end.
    repeat split; etransitivity; eassumption.
Qed.

Lemma trace_grows_without_PreOrder (p : Event -> bool) :
  PreOrder (trace_grows_without p).
Proof.
  split.
  - intros st. exists []. split; [symmetry; apply app_nil_r | reflexivity].
  - intros x y z (e1 & H1 & F1) (e2 & H2 & F2). exists (e1 ++ e2)%list. split.
    + rewrite H2, H1. symmetry. apply app_assoc.
    + rewrite forallb_app, F1, F2. reflexivity.
Qed.

#[local] Existing Instance on_machine_PreOrder.
#[local] Existing Instance failure_sticky_PreOrder.
#[local] Existing Instance same_but_refs_and_failures_PreOrder.
#[local] Existing Instance trace_grows_without_PreOrder.

Ltac preorder := try match goal with |- PreOrder _ => exact _ end.

Ltac preserves_step :=
  lazymatch goal with
  | |- preserves _ (bind _ _) => apply preserves_bind; preorder; [|intros]
  | |- preserves _ (ret _) => apply preserves_ret; preorder
  | |- preserves _ (throw _) => apply preserves_throw; preorder
  | |- preserves _ (attempt _) => apply preserves_attempt
  | |- preserves _ (when _ _) => apply preserves_when; preorder
  | |- preserves _ (deref _) => apply preserves_deref; preorder
  | |- preserves _ (check _) => apply preserves_check; preorder
  | |- preserves _ (lift _) => apply preserves_lift; preorder
  | |- preserves _ get_machine => apply preserves_get_machine; preorder
  | |- preserves _ (trace _) => apply preserves_trace; intros
  | |- preserves _ (assign _) => apply preserves_assign; intros
  | |- preserves _ (fun st => lift _ st) => apply preserves_read; preorder
  | |- preserves _ (match ?x with _ => _ end) => destruct x
  | |- preserves _ (let _ := _ in _) => cbv zeta
  end.

(** ** The external reconciler and its two callers *)

(** Symbolic execution of one call: unfold the controller and the monad,
    reduce the state projections, and follow each pending branch by a
    hypothesis that settles it or by cases. *)
Ltac go_unfold :=
  unfold reconcileInfrastructure, reconcileBootstrap, reconcileExternal,
    call_ConvertReferenceAPIContract, call_Get, call_IsPaused, call_NewHelper,
    call_SetControllerReference, call_Patch, call_Watch, call_FailuresFrom,
    call_IsReady, call_NestedString, call_UnmarshalField_string,
    call_UnmarshalField_addresses,
    when, check, lift, bind, ret, throw, attempt, get_machine, assign, deref, trace.

(** The same for a caller, leaving [reconcileExternal] folded. *)
Ltac go_unfold_caller :=
  unfold reconcileInfrastructure, reconcileBootstrap,
    call_IsReady, call_NestedString, call_UnmarshalField_string,
    call_UnmarshalField_addresses,
    when, check, lift, bind, ret, throw, attempt, get_machine, assign, deref, trace.

Ltac go_simpl :=
  cbn [fst snd st_machine st_client st_tracker st_trace
       set_machine set_client set_tracker record load store
       with_Status with_Spec set_Phase set_LastUpdated set_Addresses
       set_BootstrapReady set_InfrastructureReady set_FailureReason
       set_FailureMessage set_SpecBootstrap set_ConfigRef set_Data
       set_DataSecretName set_InfrastructureRef set_ProviderID set_FailureDomain
       Name Namespace DeletionTimestamp Spec Status
       ClusterName SpecBootstrap InfrastructureRef ProviderID FailureDomain
       ConfigRef Data DataSecretName
       NodeRef LastUpdated Addresses Phase BootstrapReady InfrastructureReady
       FailureReason FailureMessage Result Paused negb andb orb] in *.

Ltac go_step :=
  match goal with
  | H : ?x = _ |- context [match ?x with _ => _ end] => rewrite H
  | |- context [match ?x with _ => _ end] =>
      lazymatch x with
      | context [match _ with _ => _ end] => fail
      | _ => destruct x eqn:?
      end
  end.


Section ControllerProperties.

Context (env : Env).

(** What [reconcileExternal] keeps: any preorder on states that admits
    the entries it adds to the trace and the writes it makes, to the
    reference it was given, to the two failure fields, to the API server
    and to the watch tracker. *)
Lemma reconcileExternal_preserves (R : State -> State -> Prop) `{!PreOrder R}
    (cluster : Cluster) (ptr : RefPtr) :
  (forall e st, readiness_event e = false -> R st (record e st)) ->
  (forall r st, R st (set_machine (store ptr r) st)) ->
  (forall x st, R st (set_machine (with_Status (set_FailureReason (Some x))) st)) ->
  (forall x st, R st (set_machine (with_Status (set_FailureMessage (Some x))) st)) ->
  (forall c st, R st (set_client c st)) ->
  (forall t st, R st (set_tracker t st)) ->
  preserves R (reconcileExternal env cluster ptr).
Proof.
  intros Hev Hstore Hfr Hfm Hcl Htr.
  unfold reconcileExternal, call_ConvertReferenceAPIContract, call_Get, call_IsPaused,
    call_NewHelper, call_SetControllerReference, call_Patch, call_Watch,
    call_FailuresFrom.
  repeat preserves_step; auto.
  - intros st. destruct (ConvertReferenceAPIContract _ _ _) as [r' err].
    transitivity (set_machine (store ptr r') st); [apply Hstore|].
    apply preserves_check; preorder.
  - intros st. destruct (helper_Patch _ _ _ _) as [[c' obj'] err].
    transitivity (set_client c' st); [apply Hcl|].
    apply preserves_bind; preorder; [|intros]; repeat preserves_step.
  - intros st. destruct (tracker_Watch _ _ _) as [t' err].
    transitivity (set_tracker t' st); [apply Htr|].
    apply preserves_check; preorder.
Qed.

(** On the Machine, [reconcileExternal] writes the reference it was
    given and the two failure fields, and nothing else. *)
Lemma reconcileExternal_frame (cluster : Cluster) (ptr : RefPtr) (st : State) :
  same_but_refs_and_failures
    (st_machine st) (st_machine (snd (reconcileExternal env cluster ptr st))).
Proof.
  apply (reconcileExternal_preserves (on_machine same_but_refs_and_failures));
    intros; try destruct ptr; repeat split.
Qed.

Lemma reconcileExternal_sticky (cluster : Cluster) (ptr : RefPtr) :
  preserves (on_machine failure_sticky) (reconcileExternal env cluster ptr).
Proof.
  apply reconcileExternal_preserves; try exact _; intros;
    try destruct ptr; split; cbn; auto; discriminate.
Qed.

(** [reconcileExternal] neither asks the provider for readiness nor reads
    a string field of the provider object. *)
Lemma reconcileExternal_trace (cluster : Cluster) (ptr : RefPtr) (st : State) :
  trace_grows_without readiness_event st (snd (reconcileExternal env cluster ptr st)).
Proof.
  apply (reconcileExternal_preserves (trace_grows_without readiness_event));
    intros; try (exists []; split; [symmetry; apply app_nil_r | reflexivity]).
  exists [e]. split; [reflexivity|]. cbn. rewrite H. reflexivity.
Qed.

Ltac sticky_write :=
  intros; unfold on_machine, failure_sticky; cbn;
  split; intros; (assumption || discriminate).

Lemma reconcileBootstrap_sticky (cluster : Cluster) :
  preserves (on_machine failure_sticky) (reconcileBootstrap env cluster).
Proof.
  unfold reconcileBootstrap, call_IsReady, call_NestedString.
  repeat (preserves_step || apply reconcileExternal_sticky); sticky_write.
Qed.

Lemma reconcileInfrastructure_sticky (cluster : Cluster) :
  preserves (on_machine failure_sticky) (reconcileInfrastructure env cluster).
Proof.
  unfold reconcileInfrastructure, call_IsReady, call_UnmarshalField_string,
    call_UnmarshalField_addresses.
  repeat (preserves_step || apply reconcileExternal_sticky); sticky_write.
Qed.

(** *** Single paths through [reconcileExternal] *)

Lemma load_store (ptr : RefPtr) (ref : ObjectReference) (m : Machine) :
  load ptr (store ptr ref m) = Some ref.
Proof. destruct ptr; reflexivity. Qed.

(** A nil reference is dereferenced at once. *)
Lemma reconcileExternal_nil (cluster : Cluster) (ptr : RefPtr) (st : State) :
  load ptr (st_machine st) = None ->
  reconcileExternal env cluster ptr st = (Panic, st).
Proof.
  intros H. go_unfold. go_simpl. rewrite H. reflexivity.
Qed.

(** The reference is converted, the fetch reports not-found. *)
Lemma reconcileExternal_not_found (cluster : Cluster) (ptr : RefPtr) (st : State)
    (ref ref' : ObjectReference) (e : error) :
  load ptr (st_machine st) = Some ref ->
  ConvertReferenceAPIContract env (st_client st) ref = (ref', None) ->
  external_Get env (st_client st) ref' (Namespace (st_machine st)) = inl e ->
  IsNotFound (Cause e) = true ->
  reconcileExternal env cluster ptr st
  = (Err (Wrapf (RequeueAfterError externalReadyWait)
                (could_not_find env ref' (st_machine st))),
     record (CallGet ref' (Namespace (st_machine st)))
       (set_machine (store ptr ref')
          (record (CallConvertReferenceAPIContract ref) st))).
Proof.
  intros Hload Hconv Hget Hnf. destruct st as [m c t tr].
  destruct ptr; cbn in Hload; [|injection Hload as <-];
    go_unfold; go_simpl; repeat (go_step; go_simpl); reflexivity.
Qed.

(** The reference is converted and fetched, the object is paused. *)
Lemma reconcileExternal_paused (cluster : Cluster) (ptr : RefPtr) (st : State)
    (ref ref' : ObjectReference) (obj : Unstructured) :
  load ptr (st_machine st) = Some ref ->
  ConvertReferenceAPIContract env (st_client st) ref = (ref', None) ->
  external_Get env (st_client st) ref' (Namespace (st_machine st)) = inr obj ->
  annotations_IsPaused env cluster obj = true ->
  reconcileExternal env cluster ptr st
  = (Ok (mkOutput None true),
     record (LogInfo "External object referenced is paused")
       (record (CallIsPaused obj)
          (record (CallGet ref' (Namespace (st_machine st)))
             (set_machine (store ptr ref')
                (record (CallConvertReferenceAPIContract ref) st))))).
Proof.
  intros Hload Hconv Hget Hp. destruct st as [m c t tr].
  destruct ptr; cbn in Hload; [|injection Hload as <-];
    go_unfold; go_simpl; repeat (go_step; go_simpl); reflexivity.
Qed.

Lemma Contains_Error_could_not_find (cause : error) (ref : ObjectReference) (m : Machine) :
  Contains (Error env (Wrapf cause (could_not_find env ref m))) "could not find" = true.
Proof. apply Contains_of_prefix. reflexivity. Qed.

(** C2. When the fetch of the reference reports not-found,
    [reconcileExternal] returns an error whose cause is the
    scheduled-retry signal with a delay of exactly thirty seconds, never
    a plain error, and whose text names the kind, the name of the
    reference and the namespace it was looked up in. *)
Theorem reconcileExternal_not_found_requeues (cluster : Cluster) (ptr : RefPtr)
    (st : State) (ref ref' : ObjectReference) (e : error) :
  load ptr (st_machine st) = Some ref ->
  ConvertReferenceAPIContract env (st_client st) ref = (ref', None) ->
  external_Get env (st_client st) ref' (Namespace (st_machine st)) = inl e ->
  IsNotFound (Cause e) = true ->
  exists err,
    fst (reconcileExternal env cluster ptr st) = Err err
    /\ Cause err = RequeueAfterError externalReadyWait
    /\ externalReadyWait = 30 * 1000000000
    /\ isRequeueAfter err = true
    /\ Error env err
       = could_not_find env ref' (st_machine st) +:+ ": "
         +:+ RequeueAfterError_Error env externalReadyWait
    /\ Contains (Error env err) (ref_Kind ref') = true
    /\ Contains (Error env err) (Quote env (ref_Name ref')) = true
    /\ Contains (Error env err) (Quote env (Namespace (st_machine st))) = true.
Proof.
  intros Hload Hconv Hget Hnf.
  rewrite (reconcileExternal_not_found cluster ptr st ref ref' e Hload Hconv Hget Hnf).
  eexists. split; [reflexivity|]. repeat split.
  - cbn [Error Wrapf]. unfold could_not_find, GVK_String, ref_GroupVersionKind.
    rewrite gvk_Kind_FromAPIVersionAndKind. contains.
  - cbn [Error Wrapf]. unfold could_not_find. contains.
  - cbn [Error Wrapf]. unfold could_not_find. contains.
Qed.

(** C1, amended.  When the infrastructure was ready and the fetch of the
    infrastructure reference reports not-found, [reconcileInfrastructure]
    sets the failure reason and the failure message on the Machine and
    returns the error of [reconcileExternal] as it is: the
    scheduled-retry signal with the thirty-second delay, wrapped in the
    could-not-find text. *)
Theorem reconcileInfrastructure_vanished (cluster : Cluster) (st : State)
    (ref' : ObjectReference) (e : error) :
  InfrastructureReady (Status (st_machine st)) = true ->
  ConvertReferenceAPIContract env (st_client st) (InfrastructureRef (Spec (st_machine st)))
  = (ref', None) ->
  external_Get env (st_client st) ref' (Namespace (st_machine st)) = inl e ->
  IsNotFound (Cause e) = true ->
  exists err st',
    reconcileInfrastructure env cluster st = (Err err, st')
    /\ fst (reconcileExternal env cluster InfrastructureRefPtr st) = Err err
    /\ FailureReason (Status (st_machine st')) = Some InvalidConfigurationMachineError
    /\ FailureMessage (Status (st_machine st'))
       = Some ("Machine infrastructure resource "
               +:+ GVK_String (ref_GroupVersionKind ref')
               +:+ " with name " +:+ Quote env (ref_Name ref')
               +:+ " has been deleted after being ready")
    /\ Cause err = RequeueAfterError externalReadyWait
    /\ isRequeueAfter err = true.
Proof.
  intros Hready Hconv Hget Hnf.
  pose proof (reconcileExternal_not_found cluster InfrastructureRefPtr st _ ref' e
                eq_refl Hconv Hget Hnf) as Hext.
  unfold reconcileInfrastructure, bind, attempt. rewrite Hext.
  destruct st as [m c t tr]. go_unfold. go_simpl. rewrite Hready.
  rewrite Contains_Error_could_not_find. go_simpl.
  do 2 eexists. repeat split.
Qed.

(** C8. A paused external object stops the reconcile: [reconcileExternal]
    returns [Paused = true] and no error, with the Machine's status, the
    API server and the watch tracker as they were and no owner link,
    patch or watch attempted; [reconcileBootstrap] and
    [reconcileInfrastructure] then return nil in the very state
    [reconcileExternal] left. *)
Theorem paused_short_circuit (cluster : Cluster) (st : State) :
  (forall ptr ref ref' obj,
      load ptr (st_machine st) = Some ref ->
      ConvertReferenceAPIContract env (st_client st) ref = (ref', None) ->
      external_Get env (st_client st) ref' (Namespace (st_machine st)) = inr obj ->
      annotations_IsPaused env cluster obj = true ->
      exists st',
        reconcileExternal env cluster ptr st = (Ok (mkOutput None true), st')
        /\ st_machine st' = store ptr ref' (st_machine st)
        /\ Status (st_machine st') = Status (st_machine st)
        /\ st_client st' = st_client st
        /\ st_tracker st' = st_tracker st
        /\ trace_grows_without mutation_event st st')
  /\ (forall out,
        fst (reconcileExternal env cluster ConfigRefPtr st) = Ok out ->
        Paused out = true ->
        reconcileBootstrap env cluster st
        = (Ok tt, snd (reconcileExternal env cluster ConfigRefPtr st)))
  /\ (forall out,
        fst (reconcileExternal env cluster InfrastructureRefPtr st) = Ok out ->
        Paused out = true ->
        reconcileInfrastructure env cluster st
        = (Ok tt, snd (reconcileExternal env cluster InfrastructureRefPtr st))).
Proof.
  split; [|split].
  - intros ptr ref ref' obj Hload Hconv Hget Hp.
    rewrite (reconcileExternal_paused cluster ptr st ref ref' obj Hload Hconv Hget Hp).
    eexists. split; [reflexivity|]. destruct st as [m c t tr].
    repeat split; try (destruct ptr; reflexivity).
    eexists. cbn. rewrite <- !app_assoc. split; reflexivity.
  - intros out Hext Hp. go_unfold_caller. go_simpl.
    destruct (bool_decide (ConfigRef (SpecBootstrap (Spec (st_machine st))) = None)) eqn:E.
    + apply bool_decide_eq_true in E.
      rewrite (reconcileExternal_nil cluster ConfigRefPtr st E) in Hext. discriminate Hext.
    + destruct (reconcileExternal env cluster ConfigRefPtr st) as [o st1].
      cbn in Hext |- *. rewrite Hext, Hp. reflexivity.
  - intros out Hext Hp. go_unfold_caller. go_simpl.
    destruct (reconcileExternal env cluster InfrastructureRefPtr st) as [o st1].
    cbn in Hext |- *. rewrite Hext, Hp. reflexivity.
Qed.

(** C6. With the data secret name already set, and the external
    reconcile of the bootstrap reference done and not paused,
    [reconcileBootstrap] marks bootstrap ready and returns nil; between
    entry and return it neither asks the provider for readiness nor reads
    [status.dataSecretName]. *)
Theorem reconcileBootstrap_shortcut (cluster : Cluster) (st : State)
    (out : ReconcileOutput) :
  DataSecretName (SpecBootstrap (Spec (st_machine st))) <> None ->
  fst (reconcileExternal env cluster ConfigRefPtr st) = Ok out ->
  Paused out = false ->
  reconcileBootstrap env cluster st
  = (Ok tt,
     set_machine (with_Status (set_BootstrapReady true))
       (snd (reconcileExternal env cluster ConfigRefPtr st)))
  /\ BootstrapReady (Status (st_machine (snd (reconcileBootstrap env cluster st)))) = true
  /\ trace_grows_without readiness_event st (snd (reconcileBootstrap env cluster st)).
Proof.
  intros Hsecret Hext Hp.
  assert (Hrun : reconcileBootstrap env cluster st
                 = (Ok tt,
                    set_machine (with_Status (set_BootstrapReady true))
                      (snd (reconcileExternal env cluster ConfigRefPtr st)))).
  { destruct (reconcileExternal_frame cluster ConfigRefPtr st)
      as (_ & _ & _ & _ & _ & Hs & _).
    go_unfold_caller. go_simpl.
    destruct (bool_decide (ConfigRef (SpecBootstrap (Spec (st_machine st))) = None)) eqn:E.
    - apply bool_decide_eq_true in E.
      rewrite (reconcileExternal_nil cluster ConfigRefPtr st E) in Hext. discriminate Hext.
    - destruct (reconcileExternal env cluster ConfigRefPtr st) as [o st1].
      cbn in Hext, Hs |- *. rewrite Hext, Hp. go_simpl.
      rewrite bool_decide_eq_true_2 by (rewrite Hs; exact Hsecret).
      reflexivity. }
  rewrite Hrun. repeat split.
  apply (reconcileExternal_trace cluster ConfigRefPtr st).
Qed.


(** C10. Once the external reconcile of the infrastructure reference has
    given a live, unpaused object, [reconcileInfrastructure] writes what
    the provider reports into [Status.InfrastructureReady] whatever the
    flag was, and every later exit keeps it; a provider that reports
    not-ready thus leaves the flag false and gets the scheduled-retry
    signal. *)
Theorem reconcileInfrastructure_writes_ready (cluster : Cluster) (st : State)
    (infraConfig : Unstructured) (ready : bool) :
  fst (reconcileExternal env cluster InfrastructureRefPtr st)
  = Ok (mkOutput (Some infraConfig) false) ->
  IsZero (GetDeletionTimestamp infraConfig) = true ->
  external_IsReady env infraConfig = inr ready ->
  InfrastructureReady (Status (st_machine (snd (reconcileInfrastructure env cluster st))))
  = ready
  /\ (ready = false ->
      InfrastructureReady (Status (st_machine (snd (reconcileInfrastructure env cluster st))))
      = false
      /\ exists err,
          fst (reconcileInfrastructure env cluster st) = Err err
          /\ Cause err = RequeueAfterError externalReadyWait
          /\ isRequeueAfter err = true).
Proof.
  intros Hext Hdel Hready.
  go_unfold_caller. go_simpl.
  destruct (reconcileExternal env cluster InfrastructureRefPtr st) as [o st1].
  cbn in Hext |- *. rewrite Hext. go_simpl. rewrite Hdel. go_simpl.
  rewrite Hready. go_simpl. destruct ready; go_simpl.
  - split; [|discriminate]. repeat (go_step; go_simpl); reflexivity.
  - split; [reflexivity|]. intros _. split; [reflexivity|].
    eexists. repeat split.
Qed.

(** C9. None of the four operations clears a failure field: a failure
    reason or message that is non-nil before [reconcilePhase],
    [reconcileExternal], [reconcileBootstrap] or [reconcileInfrastructure]
    is non-nil after it, however the operation leaves. *)
Theorem failure_fields_sticky (now : Time) (cluster : Cluster) (ptr : RefPtr)
    (st : State) :
  failure_sticky (st_machine st) (reconcilePhase now (st_machine st))
  /\ failure_sticky (st_machine st)
                    (st_machine (snd (reconcileExternal env cluster ptr st)))
  /\ failure_sticky (st_machine st)
                    (st_machine (snd (reconcileBootstrap env cluster st)))
  /\ failure_sticky (st_machine st)
                    (st_machine (snd (reconcileInfrastructure env cluster st))).
Proof.
  split; [|split; [|split]].
  - rewrite reconcilePhase_derive.
    destruct (negb _); split; intros H; exact H.
  - apply (reconcileExternal_sticky cluster ptr st).
  - apply (reconcileBootstrap_sticky cluster st).
  - apply (reconcileInfrastructure_sticky cluster st).
Qed.

End ControllerProperties.

(** ** The statements on the reference environment *)

(** The scenarios the spec lists, run on the reference environment. *)

Example scenario_pending :
  let m := reconcilePhase 1700000100 (sampleMachine None emptyStatus) in
  Phase (Status m) = MachinePhasePending
  /\ BootstrapReady (Status m) = false
  /\ InfrastructureReady (Status m) = false.
Proof. vm_compute. repeat split. Qed.

Example scenario_bootstrap_ready :
  let r := reconcileBootstrap simEnv sampleCluster stateProvidersReady in
  fst r = Ok tt
  /\ BootstrapReady (Status (st_machine (snd r))) = true
  /\ DataSecretName (SpecBootstrap (Spec (st_machine (snd r)))) = Some "secret-1"
  /\ Data (SpecBootstrap (Spec (st_machine (snd r)))) = None.
Proof. vm_compute. repeat split. Qed.

Example scenario_infrastructure_ready :
  let r := reconcileInfrastructure simEnv sampleCluster stateProvidersReady in
  fst r = Ok tt
  /\ InfrastructureReady (Status (st_machine (snd r))) = true
  /\ ProviderID (Spec (st_machine (snd r))) = Some "aws:///i-123"
  /\ Addresses (Status (st_machine (snd r))) = [].
Proof. vm_compute. repeat split. Qed.

Example scenario_adoption :
  let r := reconcileExternal simEnv sampleCluster InfrastructureRefPtr stateProvidersReady in
  fst r = Ok (mkOutput (Some (adopted (infraObject true "aws:///i-123"))) false)
  /\ st_client (snd r) !! key_of (infraObject true "aws:///i-123")
     = Some (adopted (infraObject true "aws:///i-123")).
Proof. split; vm_compute; reflexivity. Qed.

(** Witness for C2: the infrastructure object of the sample Machine is
    not on the API server. *)
Lemma reconcileExternal_not_found_requeues_witness :
  exists err,
    fst (reconcileExternal simEnv sampleCluster InfrastructureRefPtr stateInfraVanished)
    = Err err
    /\ Cause err = RequeueAfterError externalReadyWait
    /\ externalReadyWait = 30 * 1000000000
    /\ isRequeueAfter err = true
    /\ Error simEnv err
       = could_not_find simEnv infraRef (st_machine stateInfraVanished) +:+ ": "
         +:+ RequeueAfterError_Error simEnv externalReadyWait
    /\ Contains (Error simEnv err) (ref_Kind infraRef) = true
    /\ Contains (Error simEnv err) (Quote simEnv (ref_Name infraRef)) = true
    /\ Contains (Error simEnv err)
                (Quote simEnv (Namespace (st_machine stateInfraVanished))) = true.
Proof.
  eapply (reconcileExternal_not_found_requeues simEnv sampleCluster InfrastructureRefPtr
            stateInfraVanished infraRef infraRef); reflexivity.
Defined.

(** C1, as stated, fails: the infrastructure was ready, the fetch of the
    reference reports not-found, and the error that comes back is the
    scheduled-retry signal. *)
Lemma reconcileInfrastructure_vanished_counterexample :
  InfrastructureReady (Status (st_machine stateInfraVanished)) = true
  /\ (exists e,
        external_Get simEnv (st_client stateInfraVanished) infraRef "default" = inl e
        /\ IsNotFound (Cause e) = true)
  /\ exists err,
      fst (reconcileInfrastructure simEnv sampleCluster stateInfraVanished) = Err err
      /\ isRequeueAfter err = true
      /\ Cause err = RequeueAfterError (30 * Second).
Proof.
  split; [reflexivity|]. split.
  - eexists. split; reflexivity.
  - eexists. split; [vm_compute; reflexivity|]. split; reflexivity.
Qed.

(** Witness for C1. *)
Lemma reconcileInfrastructure_vanished_witness :
  exists err st',
    reconcileInfrastructure simEnv sampleCluster stateInfraVanished = (Err err, st')
    /\ fst (reconcileExternal simEnv sampleCluster InfrastructureRefPtr stateInfraVanished)
       = Err err
    /\ FailureReason (Status (st_machine st')) = Some InvalidConfigurationMachineError
    /\ FailureMessage (Status (st_machine st'))
       = Some ("Machine infrastructure resource "
               +:+ GVK_String (ref_GroupVersionKind infraRef)
               +:+ " with name " +:+ Quote simEnv (ref_Name infraRef)
               +:+ " has been deleted after being ready")
    /\ Cause err = RequeueAfterError externalReadyWait
    /\ isRequeueAfter err = true.
Proof.
  eapply (reconcileInfrastructure_vanished simEnv sampleCluster stateInfraVanished infraRef);
    reflexivity.
Defined.

(** Witness for C8: both provider objects of the sample Machine carry the
    paused annotation. *)
Lemma paused_short_circuit_witness :
  (exists st',
      reconcileExternal simEnv sampleCluster InfrastructureRefPtr statePaused
      = (Ok (mkOutput None true), st')
      /\ st_machine st' = store InfrastructureRefPtr infraRef (st_machine statePaused)
      /\ Status (st_machine st') = Status (st_machine statePaused)
      /\ st_client st' = st_client statePaused
      /\ st_tracker st' = st_tracker statePaused
      /\ trace_grows_without mutation_event statePaused st')
  /\ reconcileBootstrap simEnv sampleCluster statePaused
     = (Ok tt, snd (reconcileExternal simEnv sampleCluster ConfigRefPtr statePaused))
  /\ reconcileInfrastructure simEnv sampleCluster statePaused
     = (Ok tt, snd (reconcileExternal simEnv sampleCluster InfrastructureRefPtr statePaused)).
Proof.
  destruct (paused_short_circuit simEnv sampleCluster statePaused) as (H1 & H2 & H3).
  split; [|split].
  - apply (H1 InfrastructureRefPtr infraRef infraRef (pausedObject infraRef));
      vm_compute; reflexivity.
  - apply (H2 (mkOutput None true)); vm_compute; reflexivity.
  - apply (H3 (mkOutput None true)); vm_compute; reflexivity.
Defined.

(** Witness for C6: the sample Machine names its secret while its
    bootstrap provider is not ready. *)
Lemma reconcileBootstrap_shortcut_witness :
  reconcileBootstrap simEnv sampleCluster stateBootstrapSecret
  = (Ok tt,
     set_machine (with_Status (set_BootstrapReady true))
       (snd (reconcileExternal simEnv sampleCluster ConfigRefPtr stateBootstrapSecret)))
  /\ BootstrapReady
       (Status (st_machine (snd (reconcileBootstrap simEnv sampleCluster
                                   stateBootstrapSecret)))) = true
  /\ trace_grows_without readiness_event stateBootstrapSecret
       (snd (reconcileBootstrap simEnv sampleCluster stateBootstrapSecret)).
Proof.
  apply (reconcileBootstrap_shortcut simEnv sampleCluster stateBootstrapSecret
           (mkOutput (Some (adopted (bootstrapObject false EmptyString))) false)).
  - vm_compute. discriminate.
  - vm_compute. reflexivity.
  - reflexivity.
Defined.


(** Witness for C10: the infrastructure was ready and the provider now
    reports not ready. *)
Lemma reconcileInfrastructure_writes_ready_witness :
  InfrastructureReady (Status (st_machine stateInfraNotReady)) = true
  /\ InfrastructureReady
       (Status (st_machine (snd (reconcileInfrastructure simEnv sampleCluster
                                   stateInfraNotReady)))) = false
  /\ exists err,
      fst (reconcileInfrastructure simEnv sampleCluster stateInfraNotReady) = Err err
      /\ Cause err = RequeueAfterError externalReadyWait
      /\ isRequeueAfter err = true.
Proof.
  split; [reflexivity|].
  apply (reconcileInfrastructure_writes_ready simEnv sampleCluster stateInfraNotReady
           (adopted (infraObject false "aws:///i-123")) false);
    vm_compute; reflexivity.
Defined.

(** Witness for C9: the recorded failure of the sample Machine is still
    there after each of the four operations. *)
Lemma failure_fields_sticky_witness :
  FailureReason (Status (reconcilePhase 1700000100 (st_machine stateFailed))) <> None
  /\ FailureMessage
       (Status (st_machine (snd (reconcileExternal simEnv sampleCluster
                                   InfrastructureRefPtr stateFailed)))) <> None
  /\ FailureReason
       (Status (st_machine (snd (reconcileBootstrap simEnv sampleCluster stateFailed))))
     <> None
  /\ FailureMessage
       (Status (st_machine (snd (reconcileInfrastructure simEnv sampleCluster
                                   stateFailed)))) <> None.
Proof.
  pose proof (failure_fields_sticky simEnv 1700000100 sampleCluster InfrastructureRefPtr
                stateFailed) as H.
  unfold failure_sticky in H. destruct H as ((P & _) & (_ & E) & (B & _) & (_ & I)).
  split; [|split; [|split]]; [apply P | apply E | apply B | apply I];
    vm_compute; discriminate.
Defined.

(** * Further properties *)

(** ** The phase deriver *)

(** X1. The phase [reconcilePhase] leaves is the phase of the last rule
    that matches, in the order Deleting, Failed, Running, Provisioned,
    Provisioning; when no rule matches, an unset phase becomes Pending
    and a set phase stays. *)
Theorem reconcilePhase_last_match (now : Time) (m : Machine) :
  Phase (Status (reconcilePhase now m)) = derive m.
Proof. rewrite reconcilePhase_derive. destruct (negb _); reflexivity. Qed.

(** X2. [reconcilePhase] writes the phase and the last-updated
    timestamp and nothing else: the name, the namespace, the deletion
    timestamp, the spec and every other status field are as they were. *)
Theorem reconcilePhase_frame (now : Time) (m : Machine) :
  Name (reconcilePhase now m) = Name m
  /\ Namespace (reconcilePhase now m) = Namespace m
  /\ DeletionTimestamp (reconcilePhase now m) = DeletionTimestamp m
  /\ Spec (reconcilePhase now m) = Spec m
  /\ NodeRef (Status (reconcilePhase now m)) = NodeRef (Status m)
  /\ Addresses (Status (reconcilePhase now m)) = Addresses (Status m)
  /\ BootstrapReady (Status (reconcilePhase now m)) = BootstrapReady (Status m)
  /\ InfrastructureReady (Status (reconcilePhase now m)) = InfrastructureReady (Status m)
  /\ FailureReason (Status (reconcilePhase now m)) = FailureReason (Status m)
  /\ FailureMessage (Status (reconcilePhase now m)) = FailureMessage (Status m).
Proof. rewrite reconcilePhase_derive. destruct (negb _); repeat split. Qed.

(** X3. After [reconcilePhase] the phase is never unset, and a Machine
    that came in with an unset phase always gets the last-updated
    timestamp. *)
Theorem reconcilePhase_never_unset (now : Time) (m : Machine) :
  Phase (Status (reconcilePhase now m)) <> EmptyString
  /\ (Phase (Status m) = EmptyString ->
      LastUpdated (Status (reconcilePhase now m)) = Some now).
Proof.
  rewrite reconcilePhase_derive.
  pose proof (derive_not_empty m) as Hne. apply String.eqb_neq in Hne.
  split.
  - destruct (negb _); exact Hne.
  - intros E. rewrite E.
    destruct (String.eqb (derive m) EmptyString) eqn:D;
      [apply String.eqb_eq in D; contradiction | reflexivity].
Qed.

(** Witness for X3. *)
Lemma reconcilePhase_never_unset_witness :
  LastUpdated (Status (reconcilePhase 1700000100 (sampleMachine None emptyStatus)))
  = Some 1700000100.
Proof.
  apply (proj2 (reconcilePhase_never_unset 1700000100 (sampleMachine None emptyStatus))).
  reflexivity.
Defined.

(** X4. A phase that is set is kept when no rule matches: with no node
    reference, no failure, no deletion, and not (bootstrap ready with
    infrastructure not ready), [reconcilePhase] returns the Machine as it
    was, whatever text the phase holds. *)
Theorem reconcilePhase_keeps_stale_phase (now : Time) (m : Machine) :
  Phase (Status m) <> EmptyString ->
  BootstrapReady (Status m) && negb (InfrastructureReady (Status m)) = false ->
  NodeRef (Status m) = None ->
  FailureReason (Status m) = None ->
  FailureMessage (Status m) = None ->
  IsZero (DeletionTimestamp m) = true ->
  reconcilePhase now m = m.
Proof.
  intros Hp Hb Hn Hr Hm Hd. rewrite reconcilePhase_derive.
  assert (D : derive m = Phase (Status m)).
  { unfold derive. rewrite Hd, Hr, Hm, Hn, Hb. cbn.
    apply String.eqb_neq in Hp. rewrite Hp. reflexivity. }
  rewrite D, String.eqb_refl. destruct m as [n ns dt sp [nr lu ad ph br ir fr fm]].
  reflexivity.
Qed.

(** Witness for X4: a Machine left in phase Running without a node
    reference stays Running. *)
Lemma reconcilePhase_keeps_stale_phase_witness :
  reconcilePhase 1700000100 machineStale = machineStale.
Proof.
  apply reconcilePhase_keeps_stale_phase; vm_compute; (reflexivity || discriminate).
Defined.

(** X5. A non-zero deletion timestamp gives phase Deleting whatever the
    other fields are; without it, a failure reason or a failure message
    gives phase Failed whatever the node reference and the readiness
    flags are. *)
Theorem reconcilePhase_Failed_Deleting (now : Time) (m : Machine) :
  (IsZero (DeletionTimestamp m) = false ->
   Phase (Status (reconcilePhase now m)) = MachinePhaseDeleting)
  /\ (IsZero (DeletionTimestamp m) = true ->
      FailureReason (Status m) <> None \/ FailureMessage (Status m) <> None ->
      Phase (Status (reconcilePhase now m)) = MachinePhaseFailed).
Proof.
  rewrite reconcilePhase_Phase. unfold derive. split.
  - intros ->. reflexivity.
  - intros -> [H|H]; cbn.
    + rewrite (bool_decide_eq_true_2 _ H). reflexivity.
    + rewrite (bool_decide_eq_true_2 _ H), orb_true_r. reflexivity.
Qed.

(** Witness for X5. *)
Lemma reconcilePhase_Failed_Deleting_witness :
  Phase (Status (reconcilePhase 1700000100 machineDeleting)) = MachinePhaseDeleting
  /\ Phase (Status (reconcilePhase 1700000100 machineRunningFailed)) = MachinePhaseFailed.
Proof.
  split.
  - apply (proj1 (reconcilePhase_Failed_Deleting 1700000100 machineDeleting)).
    reflexivity.
  - apply (proj2 (reconcilePhase_Failed_Deleting 1700000100 machineRunningFailed));
      [reflexivity | left; vm_compute; discriminate].
Defined.

(** X6. With no failure, no deletion and infrastructure not ready: a
    node reference gives phase Provisioned, also when bootstrap is ready;
    without a node reference, bootstrap ready gives Provisioning; and a
    Machine with none of these and an unset phase is Pending. *)
Theorem reconcilePhase_Provisioning_Provisioned (now : Time) (m : Machine) :
  FailureReason (Status m) = None ->
  FailureMessage (Status m) = None ->
  IsZero (DeletionTimestamp m) = true ->
  InfrastructureReady (Status m) = false ->
  (NodeRef (Status m) <> None ->
   Phase (Status (reconcilePhase now m)) = MachinePhaseProvisioned)
  /\ (NodeRef (Status m) = None -> BootstrapReady (Status m) = true ->
      Phase (Status (reconcilePhase now m)) = MachinePhaseProvisioning)
  /\ (NodeRef (Status m) = None -> BootstrapReady (Status m) = false ->
      Phase (Status m) = EmptyString ->
      Phase (Status (reconcilePhase now m)) = MachinePhasePending).
Proof.
  intros Hr Hm Hd Hi. rewrite reconcilePhase_Phase. unfold derive.
  rewrite Hr, Hm, Hd, Hi. cbn. repeat split.
  - intros H. rewrite (bool_decide_eq_true_2 _ H). reflexivity.
  - intros -> ->. reflexivity.
  - intros -> -> ->. reflexivity.
Qed.

(** Witness for X6. *)
Lemma reconcilePhase_Provisioning_Provisioned_witness :
  Phase (Status (reconcilePhase 1700000100 machineNodeOnly)) = MachinePhaseProvisioned
  /\ Phase (Status (reconcilePhase 1700000100 machineBootstrapped))
     = MachinePhaseProvisioning
  /\ Phase (Status (reconcilePhase 1700000100 (sampleMachine None emptyStatus)))
     = MachinePhasePending.
Proof.
  split; [|split].
  - apply (reconcilePhase_Provisioning_Provisioned 1700000100 machineNodeOnly);
      vm_compute; (reflexivity || discriminate).
  - apply (reconcilePhase_Provisioning_Provisioned 1700000100 machineBootstrapped);
      reflexivity.
  - apply (reconcilePhase_Provisioning_Provisioned 1700000100
             (sampleMachine None emptyStatus)); reflexivity.
Defined.

(** ** The external reconciler *)

(** Run a call along every path. *)
Ltac go_all := go_unfold; go_simpl; repeat (go_step; go_simpl).

Section ExternalProperties.

Context (env : Env).

(** X7. Unless [reconcileExternal] goes all the way, it leaves the
    Machine's status as it was: on every error, on a panic and on a
    paused object, no status field is written. *)
Theorem reconcileExternal_status_on_failure (cluster : Cluster) (ptr : RefPtr)
    (st : State) :
  succeeded (fst (reconcileExternal env cluster ptr st)) = false ->
  Status (st_machine (snd (reconcileExternal env cluster ptr st))) = Status (st_machine st).
Proof.
  destruct (reconcileExternal env cluster ptr st) as [o st'] eqn:E.
  revert E. destruct st as [m c t tr].
  destruct ptr; go_all; intros [= <- <-]; cbn; try reflexivity; discriminate.
Qed.

(** X8. An error of the reference conversion is returned as it is, and
    nothing is fetched: the only call made is the conversion, and the
    only write is what the conversion left in the reference. *)
Theorem reconcileExternal_convert_error (cluster : Cluster) (ptr : RefPtr) (st : State)
    (ref : ObjectReference) (e : error) :
  load ptr (st_machine st) = Some ref ->
  snd (ConvertReferenceAPIContract env (st_client st) ref) = Some e ->
  reconcileExternal env cluster ptr st
  = (Err e,
     set_machine (store ptr (fst (ConvertReferenceAPIContract env (st_client st) ref)))
       (record (CallConvertReferenceAPIContract ref) st)).
Proof.
  intros Hload Hconv. destruct st as [m c t tr].
  cbn in Hconv |- *.
  destruct (ConvertReferenceAPIContract env c ref) as [ref' err] eqn:E.
  cbn in Hconv |- *. subst err.
  destruct ptr; cbn in Hload, E |- *; [|injection Hload as <-];
    go_unfold; go_simpl; rewrite ?Hload; go_simpl; rewrite E; reflexivity.
Qed.

(** X9. A fetch error that is not a not-found is returned as it is, not
    turned into the scheduled-retry signal; nothing after the fetch is
    called. *)
Theorem reconcileExternal_fetch_error (cluster : Cluster) (ptr : RefPtr) (st : State)
    (ref ref' : ObjectReference) (e : error) :
  load ptr (st_machine st) = Some ref ->
  ConvertReferenceAPIContract env (st_client st) ref = (ref', None) ->
  external_Get env (st_client st) ref' (Namespace (st_machine st)) = inl e ->
  IsNotFound (Cause e) = false ->
  reconcileExternal env cluster ptr st
  = (Err e,
     record (CallGet ref' (Namespace (st_machine st)))
       (set_machine (store ptr ref')
          (record (CallConvertReferenceAPIContract ref) st))).
Proof.
  intros Hload Hconv Hget Hnf. destruct st as [m c t tr].
  destruct ptr; cbn in Hload; [|injection Hload as <-];
    go_unfold; go_simpl; repeat (go_step; go_simpl); reflexivity.
Qed.

(** X10. The calls [reconcileExternal] makes are always an initial part
    of the sequence conversion, fetch, pause check, patch helper, owner
    reference, patch, watch, failure extraction, or the first three
    followed by the paused log line.  It goes all the way only with the
    whole sequence; and when the whole sequence was made it either went
    all the way or the failure extraction, its last call, returned an
    error, which is then the result as it is.  It stops with the paused
    output exactly with the first three calls and the log line.  So the
    pause check comes before the patch helper, the owner reference, the
    patch and the watch, and the watch is never called before the
    patch. *)
Theorem reconcileExternal_call_order (cluster : Cluster) (ptr : RefPtr) (st : State) :
  exists evs : list Event,
    st_trace (snd (reconcileExternal env cluster ptr st)) = (st_trace st ++ evs)%list
    /\ (event_name <$> evs `prefix_of` full_protocol
        \/ event_name <$> evs = paused_protocol)
    /\ (succeeded (fst (reconcileExternal env cluster ptr st)) = true ->
        event_name <$> evs = full_protocol)
    /\ (event_name <$> evs = full_protocol ->
        succeeded (fst (reconcileExternal env cluster ptr st)) = true
        \/ exists obj err,
             evs !! 7%nat = Some (CallFailuresFrom obj)
             /\ external_FailuresFrom env obj = inl err
             /\ fst (reconcileExternal env cluster ptr st) = Err err)
    /\ (event_name <$> evs = paused_protocol
        <-> fst (reconcileExternal env cluster ptr st) = Ok (mkOutput None true)).
Proof.
  destruct (reconcileExternal env cluster ptr st) as [o st'] eqn:E.
  revert E. destruct st as [m c t tr].
  destruct ptr; go_all; intros [= <- <-]; go_simpl; cbn [succeeded];
    eexists;
    (split; [rewrite <- ?app_assoc; first [reflexivity | symmetry; apply app_nil_r]|]);
    (split; [first [right; reflexivity | left; eexists; reflexivity]|]);
    (split; [intros H; first [discriminate H | reflexivity]|]);
    (split; [intros H;
             first [discriminate H
                   | left; reflexivity
                   | right; do 2 eexists;
                     split; [reflexivity | split; [eassumption | reflexivity]]]
            | split; intros H; first [discriminate H | reflexivity]]).
Qed.

(** X11. When [reconcileExternal] goes all the way, the patch helper was
    made from the object as fetched, the owner reference was set on that
    object, and the object sent to the patch is the owned object with the
    cluster label set to the Machine's cluster name and every other label
    as it was; the output is the object the patch returned, and the watch
    and the failure extraction are given that object. *)
Theorem reconcileExternal_success (cluster : Cluster) (ptr : RefPtr) (st : State)
    (obj : Unstructured) :
  fst (reconcileExternal env cluster ptr st) = Ok (mkOutput (Some obj) false) ->
  exists ref ref' fetched owned patchHelper labelled,
    load ptr (st_machine st) = Some ref
    /\ ConvertReferenceAPIContract env (st_client st) ref = (ref', None)
    /\ external_Get env (st_client st) ref' (Namespace (st_machine st)) = inr fetched
    /\ annotations_IsPaused env cluster fetched = false
    /\ patch_NewHelper env fetched (st_client st) = inr patchHelper
    /\ SetControllerReference env (store ptr ref' (st_machine st)) fetched = (owned, None)
    /\ labelled
       = SetLabels (<[ClusterLabelName := ClusterName (Spec (st_machine st))]>
                      (default ∅ (GetLabels owned))) owned
    /\ helper_Patch env patchHelper (st_client st) labelled
       = (st_client (snd (reconcileExternal env cluster ptr st)), obj, None)
    /\ tracker_Watch env (st_tracker st) obj
       = (st_tracker (snd (reconcileExternal env cluster ptr st)), None)
    /\ st_trace (snd (reconcileExternal env cluster ptr st))
       = (st_trace st
          ++ [CallConvertReferenceAPIContract ref;
              CallGet ref' (Namespace (st_machine st));
              CallIsPaused fetched;
              CallNewHelper fetched;
              CallSetControllerReference fetched;
              CallPatch labelled;
              CallWatch obj;
              CallFailuresFrom obj])%list
    /\ default ∅ (GetLabels labelled) !! ClusterLabelName
       = Some (ClusterName (Spec (st_machine st)))
    /\ (forall k, k <> ClusterLabelName ->
        default ∅ (GetLabels labelled) !! k = default ∅ (GetLabels owned) !! k).
Proof.
  destruct (reconcileExternal env cluster ptr st) as [o st'] eqn:E.
  revert E. destruct st as [m c t tr].
  destruct ptr; go_all; intros [= <- <-]; go_simpl; intros H;
    try discriminate H; injection H as <-;
    do 6 eexists;
    (do 11 (split; [first [eassumption | reflexivity
                          | match goal with
                            | H1 : GetLabels _ = _ |- _ => rewrite H1
                            end;
                            rewrite <- ?app_assoc; first [eassumption | reflexivity]
                          | apply lookup_insert_eq]|]));
    intros k Hk; apply lookup_insert_ne; congruence.
Qed.

(** X12. When [reconcileExternal] goes all the way, a non-empty failure
    reason of the provider object becomes the Machine's failure reason
    and a non-empty failure message becomes the Machine's failure
    message, prefixed with the kind and the name of the object; an empty
    one leaves the field of the Machine as it was. *)
Theorem reconcileExternal_failures (cluster : Cluster) (ptr : RefPtr) (st : State)
    (obj : Unstructured) (failureReason failureMessage : string) :
  fst (reconcileExternal env cluster ptr st) = Ok (mkOutput (Some obj) false) ->
  external_FailuresFrom env obj = inr (failureReason, failureMessage) ->
  FailureReason (Status (st_machine (snd (reconcileExternal env cluster ptr st))))
  = (if String.eqb failureReason EmptyString
     then FailureReason (Status (st_machine st))
     else Some failureReason)
  /\ FailureMessage (Status (st_machine (snd (reconcileExternal env cluster ptr st))))
     = (if String.eqb failureMessage EmptyString
        then FailureMessage (Status (st_machine st))
        else Some ("Failure detected from referenced resource "
                   +:+ GVK_String (obj_GroupVersionKind obj)
                   +:+ " with name " +:+ Quote env (GetName obj)
                   +:+ ": " +:+ failureMessage)).
Proof.
  destruct (reconcileExternal env cluster ptr st) as [o st'] eqn:E.
  revert E. destruct st as [m c t tr].
  destruct ptr; go_all; intros [= <- <-]; go_simpl; intros H;
    try discriminate H; injection H as <-; intros F;
    match goal with
    | H1 : external_FailuresFrom env ?o = _ |- _ => rewrite H1 in F; injection F as <- <-
    end;
    repeat match goal with
           | H1 : context [String.eqb _ _] |- _ => revert H1
           end;
    repeat match goal with
           | |- context [String.eqb ?a EmptyString] => destruct (String.eqb a EmptyString)
           end;
    cbn; intros; try discriminate; split; reflexivity.
Qed.

End ExternalProperties.

(** Witness for X7: the reference is not found, the status is as it
    was. *)
Lemma reconcileExternal_status_on_failure_witness :
  Status (st_machine (snd (reconcileExternal simEnv sampleCluster InfrastructureRefPtr
                             stateInfraVanished)))
  = Status (st_machine stateInfraVanished).
Proof.
  apply reconcileExternal_status_on_failure. vm_compute. reflexivity.
Defined.

(** Witness for X8. *)
Lemma reconcileExternal_convert_error_witness :
  fst (reconcileExternal (faultyEnv convertFault) sampleCluster InfrastructureRefPtr
         stateProvidersReady)
  = Err (errorString "unsupported contract version")
  /\ st_trace (snd (reconcileExternal (faultyEnv convertFault) sampleCluster
                      InfrastructureRefPtr stateProvidersReady))
     = [CallConvertReferenceAPIContract infraRef].
Proof.
  rewrite (reconcileExternal_convert_error (faultyEnv convertFault) sampleCluster
             InfrastructureRefPtr stateProvidersReady infraRef
             (errorString "unsupported contract version")) by reflexivity.
  split; reflexivity.
Defined.

(** Witness for X9: the fetch is forbidden. *)
Lemma reconcileExternal_fetch_error_witness :
  fst (reconcileExternal (faultyEnv getFault) sampleCluster InfrastructureRefPtr
         stateProvidersReady)
  = Err forbidden
  /\ isRequeueAfter forbidden = false.
Proof.
  rewrite (reconcileExternal_fetch_error (faultyEnv getFault) sampleCluster
             InfrastructureRefPtr stateProvidersReady infraRef infraRef forbidden)
    by reflexivity.
  split; reflexivity.
Defined.

(** Witness for X10: a complete run makes the whole sequence of calls,
    and so does a run whose failure extraction is refused, which returns
    that error. *)
Lemma reconcileExternal_call_order_witness :
  (exists evs : list Event,
     st_trace (snd (reconcileExternal simEnv sampleCluster InfrastructureRefPtr
                      stateProvidersReady))
     = (st_trace stateProvidersReady ++ evs)%list
     /\ event_name <$> evs = full_protocol)
  /\ (event_name <$> st_trace (snd (reconcileExternal (faultyEnv failuresFault)
                                      sampleCluster InfrastructureRefPtr
                                      stateProvidersReady))
      = full_protocol
      /\ fst (reconcileExternal (faultyEnv failuresFault) sampleCluster
                InfrastructureRefPtr stateProvidersReady)
         = Err malformed).
Proof.
  split.
  - destruct (reconcileExternal_call_order simEnv sampleCluster InfrastructureRefPtr
                stateProvidersReady) as (evs & Htr & _ & Hfull & _).
    exists evs. split; [exact Htr|]. apply Hfull. vm_compute. reflexivity.
  - destruct (reconcileExternal_call_order (faultyEnv failuresFault) sampleCluster
                InfrastructureRefPtr stateProvidersReady)
      as (evs & Htr & _ & _ & Hall & _).
    change (st_trace stateProvidersReady ++ evs)%list with evs in Htr.
    rewrite Htr.
    assert (Hnames : event_name <$> evs = full_protocol)
      by (rewrite <- Htr; vm_compute; reflexivity).
    split; [exact Hnames|].
    destruct (Hall Hnames) as [Hok | (obj & err & Hlast & Hfail & Hres)].
    + vm_compute in Hok. discriminate Hok.
    + rewrite Hres. f_equal. cbn in Hfail. congruence.
Defined.

(** Witness for X11: the patched object carries the cluster label. *)
Lemma reconcileExternal_success_witness :
  exists labelled,
    In (CallPatch labelled)
       (st_trace (snd (reconcileExternal simEnv sampleCluster InfrastructureRefPtr
                         stateInfraRich)))
    /\ default ∅ (GetLabels labelled) !! ClusterLabelName = Some "test-cluster".
Proof.
  destruct (reconcileExternal_success simEnv sampleCluster InfrastructureRefPtr
              stateInfraRich adoptedRich)
    as (ref & ref' & fetched & owned & h & labelled & _ & _ & _ & _ & _ & _ & _ & _ & _
        & Htr & Hl & _).
  - vm_compute. reflexivity.
  - exists labelled. split; [|exact Hl].
    rewrite Htr. apply in_or_app. right. cbn. tauto.
Defined.

(** Witness for X12: the provider reports a failure. *)
Lemma reconcileExternal_failures_witness :
  FailureReason
    (Status (st_machine (snd (reconcileExternal simEnv sampleCluster InfrastructureRefPtr
                                stateInfraFailure))))
  = Some "CreateError".
Proof.
  destruct (reconcileExternal_failures simEnv sampleCluster InfrastructureRefPtr
              stateInfraFailure (adopted failedInfraObject) "CreateError" "quota exceeded")
    as [Hr _].
  - vm_compute. reflexivity.
  - vm_compute. reflexivity.
  - rewrite Hr. reflexivity.
Defined.

(** ** The two callers *)

Lemma identity_untouched_PreOrder : PreOrder identity_untouched.
Proof.
  split.
  - intros m. repeat split.
  - intros x y z H1 H2. unfold identity_untouched in *.
    repeat match goal with H : _ /\ _ |- _ => destruct H end.
    repeat split; etransitivity; eassumption.
Qed.

Lemma infrastructure_untouched_PreOrder : PreOrder infrastructure_untouched.
Proof.
  split.
  - intros m. repeat split.
  - intros x y z H1 H2. unfold infrastructure_untouched in *.
    repeat match goal with H : _ /\ _ |- _ => destruct H end.
    repeat split; etransitivity; eassumption.
Qed.

Lemma bootstrap_untouched_PreOrder : PreOrder bootstrap_untouched.
Proof.
  split.
  - intros m. repeat split.
  - intros x y z [H1 H2] [H3 H4]. split; etransitivity; eassumption.
Qed.

Lemma bootstrap_ready_kept_PreOrder : PreOrder bootstrap_ready_kept.
Proof.
  split.
  - intros m H. exact H.
  - intros x y z H1 H2 H. apply H2, H1, H.
Qed.

Lemma and_PreOrder {A : Type} (R S : A -> A -> Prop) :
  PreOrder R -> PreOrder S -> PreOrder (fun x y => R x y /\ S x y).
Proof.
  intros [RR RT] [SR ST]. split.
  - intros x. split; [apply RR | apply SR].
  - intros x y z [H1 H2] [H3 H4]. split; [eapply RT | eapply ST]; eassumption.
Qed.

#[local] Existing Instance identity_untouched_PreOrder.
#[local] Existing Instance infrastructure_untouched_PreOrder.
#[local] Existing Instance bootstrap_untouched_PreOrder.
#[local] Existing Instance bootstrap_ready_kept_PreOrder.
#[local] Existing Instance and_PreOrder.

Ltac frame_write :=
  intros;
  unfold on_machine, identity_untouched, infrastructure_untouched, bootstrap_untouched,
    bootstrap_ready_kept;
  cbn; repeat split; auto.

Section CallerProperties.

Context (env : Env).

(** What a caller knows of the state [reconcileExternal] left. *)
Ltac split_external ptr cluster st :=
  destruct (reconcileExternal_frame env cluster ptr st)
    as (Hname & Hnamespace & Hdel & Hcluster & Hdata & Hsecret & Hprovider & Hdomain
        & Hnode & Hupdated & Haddresses & Hphase & Hbootstrap & Hinfra);
  destruct (reconcileExternal env cluster ptr st) as [oE stE] eqn:Eext;
  cbn [fst snd] in *.

(** Enter [reconcileBootstrap] with a reference set and no data secret
    name, past an unpaused [reconcileExternal]. *)
Ltac enter_bootstrap cluster st Hs Hext :=
  let Eref := fresh "Eref" in
  destruct (ConfigRef (SpecBootstrap (Spec (st_machine st)))) as [?|] eqn:Eref;
    [|rewrite (reconcileExternal_nil env cluster ConfigRefPtr st Eref) in Hext;
      discriminate Hext];
  go_unfold_caller; go_simpl; rewrite Eref;
  rewrite bool_decide_eq_false_2 by discriminate; go_simpl;
  split_external ConfigRefPtr cluster st; subst;
  go_simpl;
  match goal with
  | H : DataSecretName _ = DataSecretName _ |- _ => rewrite H, Hs
  end;
  rewrite bool_decide_eq_false_2 by (intros H; apply H; reflexivity).

(** *** reconcileBootstrap *)

(** X13. Without a bootstrap reference [reconcileBootstrap] does
    nothing: it returns nil, makes no call and leaves the whole state as
    it was. *)
Theorem reconcileBootstrap_no_ref (cluster : Cluster) (st : State) :
  ConfigRef (SpecBootstrap (Spec (st_machine st))) = None ->
  reconcileBootstrap env cluster st = (Ok tt, st).
Proof.
  intros H. go_unfold_caller. go_simpl.
  rewrite bool_decide_eq_true_2 by exact H. reflexivity.
Qed.

(** X14. With no data secret name yet and a live bootstrap object whose
    provider is not ready, [reconcileBootstrap] returns the
    scheduled-retry signal with the thirty-second delay right after the
    readiness check, and the bootstrap-ready flag is as it was. *)
Theorem reconcileBootstrap_not_ready (cluster : Cluster) (st : State)
    (bootstrapConfig : Unstructured) :
  DataSecretName (SpecBootstrap (Spec (st_machine st))) = None ->
  fst (reconcileExternal env cluster ConfigRefPtr st)
  = Ok (mkOutput (Some bootstrapConfig) false) ->
  IsZero (GetDeletionTimestamp bootstrapConfig) = true ->
  external_IsReady env bootstrapConfig = inr false ->
  exists err,
    reconcileBootstrap env cluster st
    = (Err err,
       record (CallIsReady bootstrapConfig)
         (snd (reconcileExternal env cluster ConfigRefPtr st)))
    /\ Cause err = RequeueAfterError externalReadyWait
    /\ isRequeueAfter err = true
    /\ BootstrapReady (Status (st_machine (snd (reconcileBootstrap env cluster st))))
       = BootstrapReady (Status (st_machine st)).
Proof.
  intros Hs Hext Hdel0 Hready. enter_bootstrap cluster st Hs Hext.
  rewrite Hdel0. go_simpl. rewrite Hready. go_simpl.
  eexists. repeat split. assumption.
Qed.

(** X15. When the Machine has no data secret name on entry and
    [reconcileExternal] returns an unpaused bootstrap object that is not
    being deleted, that the provider reports ready and whose
    [status.dataSecretName] is read without error as a non-empty string,
    [reconcileBootstrap] returns nil with the inline bootstrap data
    cleared, the data secret name set to that string and bootstrap marked
    ready.  (With a data secret name on entry the earlier return of the
    function applies instead: the name and the inline data are kept.) *)
Theorem reconcileBootstrap_ready (cluster : Cluster) (st : State)
    (bootstrapConfig : Unstructured) (secretName : string) (found : bool) :
  DataSecretName (SpecBootstrap (Spec (st_machine st))) = None ->
  fst (reconcileExternal env cluster ConfigRefPtr st)
  = Ok (mkOutput (Some bootstrapConfig) false) ->
  IsZero (GetDeletionTimestamp bootstrapConfig) = true ->
  external_IsReady env bootstrapConfig = inr true ->
  NestedString env (obj_Object bootstrapConfig) ["status"; "dataSecretName"]
  = (secretName, found, None) ->
  secretName <> EmptyString ->
  fst (reconcileBootstrap env cluster st) = Ok tt
  /\ BootstrapReady (Status (st_machine (snd (reconcileBootstrap env cluster st)))) = true
  /\ DataSecretName
       (SpecBootstrap (Spec (st_machine (snd (reconcileBootstrap env cluster st)))))
     = Some secretName
  /\ Data (SpecBootstrap (Spec (st_machine (snd (reconcileBootstrap env cluster st)))))
     = None.
Proof.
  intros Hs Hext Hdel0 Hready Hns Hne. enter_bootstrap cluster st Hs Hext.
  rewrite Hdel0. go_simpl. rewrite Hready. go_simpl. rewrite Hns. go_simpl.
  apply String.eqb_neq in Hne. rewrite Hne. go_simpl. repeat split.
Qed.

(** X16. When the Machine has no data secret name on entry and
    [reconcileExternal] returns an unpaused bootstrap object that is not
    being deleted and that the provider reports ready, a read error of
    [status.dataSecretName] comes back wrapped, with the same cause, and
    an empty secret name read without error comes back as a plain error,
    not as the scheduled-retry signal; either way the bootstrap-ready
    flag and the inline data are as they were and the data secret name is
    still nil. *)
Theorem reconcileBootstrap_secret_errors (cluster : Cluster) (st : State)
    (bootstrapConfig : Unstructured) (secretName : string) (found : bool)
    (nerr : option error) :
  DataSecretName (SpecBootstrap (Spec (st_machine st))) = None ->
  fst (reconcileExternal env cluster ConfigRefPtr st)
  = Ok (mkOutput (Some bootstrapConfig) false) ->
  IsZero (GetDeletionTimestamp bootstrapConfig) = true ->
  external_IsReady env bootstrapConfig = inr true ->
  NestedString env (obj_Object bootstrapConfig) ["status"; "dataSecretName"]
  = (secretName, found, nerr) ->
  nerr <> None \/ secretName = EmptyString ->
  exists err,
    fst (reconcileBootstrap env cluster st) = Err err
    /\ (forall e, nerr = Some e -> Cause err = Cause e)
    /\ (nerr = None -> isRequeueAfter err = false)
    /\ BootstrapReady (Status (st_machine (snd (reconcileBootstrap env cluster st))))
       = BootstrapReady (Status (st_machine st))
    /\ DataSecretName
         (SpecBootstrap (Spec (st_machine (snd (reconcileBootstrap env cluster st)))))
       = None
    /\ Data (SpecBootstrap (Spec (st_machine (snd (reconcileBootstrap env cluster st)))))
       = Data (SpecBootstrap (Spec (st_machine st))).
Proof.
  intros Hs Hext Hdel0 Hready Hns Hbad. enter_bootstrap cluster st Hs Hext.
  rewrite Hdel0. go_simpl. rewrite Hready. go_simpl. rewrite Hns. go_simpl.
  destruct nerr as [e|].
  - eexists. split; [reflexivity|]. go_simpl. rewrite Hsecret, Hs.
    repeat split; try assumption; [intros e' [= <-]; reflexivity | discriminate].
  - destruct Hbad as [Hbad | ->]; [contradiction|].
    change (String.eqb EmptyString EmptyString) with true. go_simpl.
    eexists. split; [reflexivity|]. go_simpl. rewrite Hsecret, Hs.
    repeat split; try assumption. discriminate.
Qed.

(** X17. With no data secret name yet and a bootstrap object that is
    being deleted, [reconcileBootstrap] returns nil in the state
    [reconcileExternal] left: the provider is not asked for readiness and
    nothing is written. *)
Theorem reconcileBootstrap_deleting (cluster : Cluster) (st : State)
    (bootstrapConfig : Unstructured) :
  DataSecretName (SpecBootstrap (Spec (st_machine st))) = None ->
  fst (reconcileExternal env cluster ConfigRefPtr st)
  = Ok (mkOutput (Some bootstrapConfig) false) ->
  IsZero (GetDeletionTimestamp bootstrapConfig) = false ->
  reconcileBootstrap env cluster st
  = (Ok tt, snd (reconcileExternal env cluster ConfigRefPtr st)).
Proof.
  intros Hs Hext Hdel0. enter_bootstrap cluster st Hs Hext.
  rewrite Hdel0. reflexivity.
Qed.

(** X18. [reconcileBootstrap] never takes the bootstrap-ready flag
    back: a flag that is true on entry is true on every exit, also when
    the provider reports not ready. *)
Theorem reconcileBootstrap_ready_kept (cluster : Cluster) (st : State) :
  BootstrapReady (Status (st_machine st)) = true ->
  BootstrapReady (Status (st_machine (snd (reconcileBootstrap env cluster st)))) = true.
Proof.
  cut (preserves (on_machine bootstrap_ready_kept) (reconcileBootstrap env cluster));
    [intros H; apply H|].
  unfold reconcileBootstrap, call_IsReady, call_NestedString.
  repeat (preserves_step || (apply reconcileExternal_preserves; [exact _|..]));
    frame_write.
Qed.

(** X19. [reconcileBootstrap] keeps the invariant that a Machine marked
    bootstrap-ready names its data secret: whenever it sets the flag, the
    data secret name is non-nil. *)
Theorem reconcileBootstrap_ready_with_secret (cluster : Cluster) (st : State) :
  ready_with_secret (st_machine st) ->
  ready_with_secret (st_machine (snd (reconcileBootstrap env cluster st))).
Proof.
  unfold ready_with_secret. intros Hinv.
  go_unfold_caller. go_simpl.
  destruct (bool_decide (ConfigRef (SpecBootstrap (Spec (st_machine st))) = None));
    [exact Hinv|].
  go_simpl. split_external ConfigRefPtr cluster st.
  rewrite <- Hsecret, <- Hbootstrap in Hinv.
  repeat (go_step; go_simpl); try exact Hinv;
    intros _; first [discriminate | eapply bool_decide_eq_true_1; eassumption].
Qed.

(** X20. [reconcileBootstrap] writes nothing that belongs to the
    infrastructure side or to the phase deriver: the infrastructure
    reference, the provider id, the failure domain, the addresses, the
    infrastructure-ready flag, the node reference, the phase and the
    last-updated timestamp are as they were on every exit. *)
Theorem reconcileBootstrap_frame (cluster : Cluster) (st : State) :
  identity_untouched (st_machine st) (st_machine (snd (reconcileBootstrap env cluster st)))
  /\ infrastructure_untouched
       (st_machine st) (st_machine (snd (reconcileBootstrap env cluster st))).
Proof.
  cut (preserves (on_machine (fun m m' => identity_untouched m m'
                                          /\ infrastructure_untouched m m'))
         (reconcileBootstrap env cluster)); [intros H; apply H|].
  unfold reconcileBootstrap, call_IsReady, call_NestedString.
  repeat (preserves_step || (apply reconcileExternal_preserves; [exact _|..]));
    frame_write.
Qed.

(** *** reconcileInfrastructure *)

(** X21. [reconcileInfrastructure] writes the provider id last: on every
    exit the provider id either is as it was, or the function returned
    nil, the infrastructure is marked ready and the provider id is a
    non-empty string. *)
Theorem reconcileInfrastructure_ProviderID (cluster : Cluster) (st : State) :
  ProviderID (Spec (st_machine (snd (reconcileInfrastructure env cluster st))))
  = ProviderID (Spec (st_machine st))
  \/ (fst (reconcileInfrastructure env cluster st) = Ok tt
      /\ InfrastructureReady
           (Status (st_machine (snd (reconcileInfrastructure env cluster st)))) = true
      /\ exists providerID,
          providerID <> EmptyString
          /\ ProviderID (Spec (st_machine (snd (reconcileInfrastructure env cluster st))))
             = Some providerID).
Proof.
  destruct (reconcileInfrastructure env cluster st) as [o st'] eqn:E.
  cbn [fst snd]. revert E.
  go_unfold_caller. go_simpl. split_external InfrastructureRefPtr cluster st.
  repeat (go_step; go_simpl); intros [= <- <-]; go_simpl;
    try (left; exact Hprovider).
  all: repeat match goal with
              | H : negb _ = false |- _ => apply negb_false_iff in H
              end; subst.
  all: right; repeat split; eexists; split; [|reflexivity];
    apply String.eqb_neq; assumption.
Qed.

(** X22. With a live, ready infrastructure object that has a non-empty
    provider id, [reconcileInfrastructure] returns nil with the
    infrastructure marked ready and the provider id set, when the reads
    of the addresses and of the failure domain succeed or report
    field-not-found: the addresses are what the read left, and the
    failure domain is set when it was found and as it was when not. *)
Theorem reconcileInfrastructure_ready (cluster : Cluster) (st : State)
    (infraConfig : Unstructured) (providerID failureDomain : string)
    (aerr ferr : option error) :
  fst (reconcileExternal env cluster InfrastructureRefPtr st)
  = Ok (mkOutput (Some infraConfig) false) ->
  IsZero (GetDeletionTimestamp infraConfig) = true ->
  external_IsReady env infraConfig = inr true ->
  UnstructuredUnmarshalField_string env infraConfig ["spec"; "providerID"]
  = (providerID, None) ->
  providerID <> EmptyString ->
  snd (UnstructuredUnmarshalField_addresses env infraConfig
         (Addresses (Status (st_machine st))) ["status"; "addresses"]) = aerr ->
  aerr = None \/ aerr = Some ErrUnstructuredFieldNotFound ->
  UnstructuredUnmarshalField_string env infraConfig ["spec"; "failureDomain"]
  = (failureDomain, ferr) ->
  ferr = None \/ ferr = Some ErrUnstructuredFieldNotFound ->
  fst (reconcileInfrastructure env cluster st) = Ok tt
  /\ InfrastructureReady
       (Status (st_machine (snd (reconcileInfrastructure env cluster st)))) = true
  /\ ProviderID (Spec (st_machine (snd (reconcileInfrastructure env cluster st))))
     = Some providerID
  /\ Addresses (Status (st_machine (snd (reconcileInfrastructure env cluster st))))
     = fst (UnstructuredUnmarshalField_addresses env infraConfig
              (Addresses (Status (st_machine st))) ["status"; "addresses"])
  /\ FailureDomain (Spec (st_machine (snd (reconcileInfrastructure env cluster st))))
     = match ferr with
       | None => Some failureDomain
       | Some _ => FailureDomain (Spec (st_machine st))
       end.
Proof.
  intros Hext Hdel0 Hready Hid Hne Ha Haok Hf Hfok.
  go_unfold_caller. go_simpl. split_external InfrastructureRefPtr cluster st. subst oE.
  go_simpl. rewrite Hdel0. go_simpl. rewrite Hready. go_simpl. rewrite Hid. go_simpl.
  apply String.eqb_neq in Hne. rewrite Hne. go_simpl. rewrite Haddresses.
  destruct (UnstructuredUnmarshalField_addresses env infraConfig
              (Addresses (Status (st_machine st))) ["status"; "addresses"])
    as [addrs aerr'] eqn:Ea.
  cbn [fst snd] in *. subst aerr'. rewrite Hf.
  destruct Haok as [-> | ->], Hfok as [-> | ->]; go_simpl; cbn;
    repeat split; try assumption.
Qed.

(** X23. While the infrastructure has not been ready, a reference that
    is not found is only retried: [reconcileInfrastructure] returns the
    scheduled-retry signal and records no failure, the status is as it
    was. *)
Theorem reconcileInfrastructure_not_found_before_ready (cluster : Cluster) (st : State)
    (ref' : ObjectReference) (e : error) :
  InfrastructureReady (Status (st_machine st)) = false ->
  ConvertReferenceAPIContract env (st_client st) (InfrastructureRef (Spec (st_machine st)))
  = (ref', None) ->
  external_Get env (st_client st) ref' (Namespace (st_machine st)) = inl e ->
  IsNotFound (Cause e) = true ->
  exists err,
    fst (reconcileInfrastructure env cluster st) = Err err
    /\ Cause err = RequeueAfterError externalReadyWait
    /\ isRequeueAfter err = true
    /\ Status (st_machine (snd (reconcileInfrastructure env cluster st)))
       = Status (st_machine st).
Proof.
  intros Hready Hconv Hget Hnf.
  pose proof (reconcileExternal_not_found env cluster InfrastructureRefPtr st _ ref' e
                eq_refl Hconv Hget Hnf) as Hext.
  unfold reconcileInfrastructure, bind, attempt. rewrite Hext.
  destruct st as [m c t tr]. go_unfold. go_simpl. cbn in Hready. rewrite Hready.
  go_simpl. eexists. repeat split.
Qed.

(** X24. Every error of [reconcileExternal] is returned by
    [reconcileInfrastructure] as it is.  The failure is recorded on the
    Machine exactly when the infrastructure was ready and the text of the
    error contains "could not find", whatever kind of error it is and
    whichever step produced it; otherwise the state is the one
    [reconcileExternal] left. *)
Theorem reconcileInfrastructure_escalation (cluster : Cluster) (st : State) (err : error) :
  fst (reconcileExternal env cluster InfrastructureRefPtr st) = Err err ->
  fst (reconcileInfrastructure env cluster st) = Err err
  /\ (InfrastructureReady (Status (st_machine st)) = true ->
      Contains (Error env err) "could not find" = true ->
      FailureReason (Status (st_machine (snd (reconcileInfrastructure env cluster st))))
      = Some InvalidConfigurationMachineError
      /\ FailureMessage
           (Status (st_machine (snd (reconcileInfrastructure env cluster st))))
         = Some ("Machine infrastructure resource "
                 +:+ GVK_String
                       (ref_GroupVersionKind
                          (InfrastructureRef
                             (Spec (st_machine
                                (snd (reconcileExternal env cluster
                                        InfrastructureRefPtr st))))))
                 +:+ " with name "
                 +:+ Quote env
                       (ref_Name
                          (InfrastructureRef
                             (Spec (st_machine
                                (snd (reconcileExternal env cluster
                                        InfrastructureRefPtr st))))))
                 +:+ " has been deleted after being ready"))
  /\ (InfrastructureReady (Status (st_machine st)) = false
      \/ Contains (Error env err) "could not find" = false ->
      snd (reconcileInfrastructure env cluster st)
      = snd (reconcileExternal env cluster InfrastructureRefPtr st)).
Proof.
  intros Hext.
  go_unfold_caller. go_simpl. split_external InfrastructureRefPtr cluster st. subst oE.
  go_simpl. rewrite Hinfra.
  destruct (InfrastructureReady (Status (st_machine st))),
           (Contains (Error env err) "could not find"); go_simpl;
    (split; [reflexivity|]); split; intros; try discriminate;
    try reflexivity; try (destruct H; discriminate).
  split; reflexivity.
Qed.

(** X25. With an infrastructure object that is being deleted,
    [reconcileInfrastructure] returns nil in the state [reconcileExternal]
    left: the provider is not asked for readiness and the
    infrastructure-ready flag is not touched. *)
Theorem reconcileInfrastructure_deleting (cluster : Cluster) (st : State)
    (infraConfig : Unstructured) :
  fst (reconcileExternal env cluster InfrastructureRefPtr st)
  = Ok (mkOutput (Some infraConfig) false) ->
  IsZero (GetDeletionTimestamp infraConfig) = false ->
  reconcileInfrastructure env cluster st
  = (Ok tt, snd (reconcileExternal env cluster InfrastructureRefPtr st)).
Proof.
  intros Hext Hdel0.
  go_unfold_caller. go_simpl. split_external InfrastructureRefPtr cluster st. subst oE.
  go_simpl. rewrite Hdel0. reflexivity.
Qed.

(** X26. [reconcileInfrastructure] writes nothing that belongs to the
    bootstrap side or to the phase deriver: the bootstrap part of the
    spec, the bootstrap-ready flag, the node reference, the phase and the
    last-updated timestamp are as they were on every exit. *)
Theorem reconcileInfrastructure_frame (cluster : Cluster) (st : State) :
  identity_untouched
    (st_machine st) (st_machine (snd (reconcileInfrastructure env cluster st)))
  /\ bootstrap_untouched
       (st_machine st) (st_machine (snd (reconcileInfrastructure env cluster st))).
Proof.
  cut (preserves (on_machine (fun m m' => identity_untouched m m'
                                          /\ bootstrap_untouched m m'))
         (reconcileInfrastructure env cluster)); [intros H; apply H|].
  unfold reconcileInfrastructure, call_IsReady, call_UnmarshalField_string,
    call_UnmarshalField_addresses.
  repeat (preserves_step || (apply reconcileExternal_preserves; [exact _|..]));
    frame_write.
Qed.

(** *** A reconcile pass *)

(** X27. When the infrastructure was ready and its reference is not
    found, the phase derived after [reconcileInfrastructure] is Failed,
    or Deleting for a Machine under deletion, whatever the phase was. *)
Theorem vanished_infrastructure_is_Failed (cluster : Cluster) (st : State)
    (ref' : ObjectReference) (e : error) (now : Time) :
  InfrastructureReady (Status (st_machine st)) = true ->
  ConvertReferenceAPIContract env (st_client st) (InfrastructureRef (Spec (st_machine st)))
  = (ref', None) ->
  external_Get env (st_client st) ref' (Namespace (st_machine st)) = inl e ->
  IsNotFound (Cause e) = true ->
  Phase (Status (reconcilePhase now
                   (st_machine (snd (reconcileInfrastructure env cluster st)))))
  = if IsZero (DeletionTimestamp (st_machine st))
    then MachinePhaseFailed else MachinePhaseDeleting.
Proof.
  intros Hready Hconv Hget Hnf.
  pose proof (reconcileExternal_not_found env cluster InfrastructureRefPtr st _ ref' e
                eq_refl Hconv Hget Hnf) as Hext.
  rewrite reconcilePhase_Phase.
  unfold reconcileInfrastructure, bind, attempt. rewrite Hext.
  destruct st as [m c t tr]. go_unfold. go_simpl. cbn in Hready. rewrite Hready.
  rewrite Contains_Error_could_not_find. go_simpl.
  unfold derive. go_simpl. destruct (IsZero (DeletionTimestamp m)); reflexivity.
Qed.

End CallerProperties.

(** ** The further statements on the reference environment *)

(** Witness for X13. *)
Lemma reconcileBootstrap_no_ref_witness :
  reconcileBootstrap simEnv sampleCluster stateNoBootstrap = (Ok tt, stateNoBootstrap).
Proof. apply reconcileBootstrap_no_ref. reflexivity. Defined.

(** Witness for X14: the bootstrap provider is not ready. *)
Lemma reconcileBootstrap_not_ready_witness :
  exists err,
    fst (reconcileBootstrap simEnv sampleCluster stateBootstrapNotReady) = Err err
    /\ isRequeueAfter err = true.
Proof.
  destruct (reconcileBootstrap_not_ready simEnv sampleCluster stateBootstrapNotReady
              (adopted (bootstrapObject false EmptyString)))
    as (err & Hrun & _ & Hr & _).
  - reflexivity.
  - vm_compute. reflexivity.
  - reflexivity.
  - vm_compute. reflexivity.
  - exists err. rewrite Hrun. split; [reflexivity | exact Hr].
Defined.

(** Witness for X15: the bootstrap provider is ready and names the
    secret [secret-1]. *)
Lemma reconcileBootstrap_ready_witness :
  fst (reconcileBootstrap simEnv sampleCluster stateProvidersReady) = Ok tt
  /\ BootstrapReady
       (Status (st_machine (snd (reconcileBootstrap simEnv sampleCluster
                                   stateProvidersReady)))) = true
  /\ DataSecretName
       (SpecBootstrap
          (Spec (st_machine (snd (reconcileBootstrap simEnv sampleCluster
                                    stateProvidersReady)))))
     = Some "secret-1"
  /\ Data (SpecBootstrap
             (Spec (st_machine (snd (reconcileBootstrap simEnv sampleCluster
                                       stateProvidersReady)))))
     = None.
Proof.
  apply (reconcileBootstrap_ready simEnv sampleCluster stateProvidersReady
           (adopted (bootstrapObject true "secret-1")) "secret-1" true);
    vm_compute; (reflexivity || discriminate).
Defined.

(** Witness for X16: the bootstrap provider is ready and names no
    secret. *)
Lemma reconcileBootstrap_secret_errors_witness :
  exists err,
    fst (reconcileBootstrap simEnv sampleCluster stateBootstrapEmptySecret) = Err err
    /\ isRequeueAfter err = false.
Proof.
  destruct (reconcileBootstrap_secret_errors simEnv sampleCluster stateBootstrapEmptySecret
              (adopted (bootstrapObject true EmptyString)) EmptyString true None)
    as (err & Hrun & _ & Hr & _).
  - reflexivity.
  - vm_compute. reflexivity.
  - reflexivity.
  - vm_compute. reflexivity.
  - vm_compute. reflexivity.
  - right. reflexivity.
  - exists err. split; [exact Hrun | apply Hr; reflexivity].
Defined.

(** Witness for X17: the bootstrap object is being deleted. *)
Lemma reconcileBootstrap_deleting_witness :
  reconcileBootstrap simEnv sampleCluster stateProvidersDeleting
  = (Ok tt, snd (reconcileExternal simEnv sampleCluster ConfigRefPtr stateProvidersDeleting)).
Proof.
  apply (reconcileBootstrap_deleting simEnv sampleCluster stateProvidersDeleting
           (adopted (deletingObject bootstrapRef)));
    vm_compute; reflexivity.
Defined.

(** Witness for X18: bootstrap was ready and the provider now reports
    not ready. *)
Lemma reconcileBootstrap_ready_kept_witness :
  BootstrapReady
    (Status (st_machine (snd (reconcileBootstrap simEnv sampleCluster
                                stateBootstrapWasReady)))) = true.
Proof. apply reconcileBootstrap_ready_kept. reflexivity. Defined.

(** Witness for X19. *)
Lemma reconcileBootstrap_ready_with_secret_witness :
  ready_with_secret
    (st_machine (snd (reconcileBootstrap simEnv sampleCluster stateProvidersReady))).
Proof.
  apply reconcileBootstrap_ready_with_secret. intros H. vm_compute in H. discriminate H.
Defined.

(** Witness for X22: the infrastructure object has a provider id, a
    failure domain and one address. *)
Lemma reconcileInfrastructure_ready_witness :
  fst (reconcileInfrastructure simEnv sampleCluster stateInfraRich) = Ok tt
  /\ ProviderID
       (Spec (st_machine (snd (reconcileInfrastructure simEnv sampleCluster
                                 stateInfraRich)))) = Some "aws:///i-123"
  /\ FailureDomain
       (Spec (st_machine (snd (reconcileInfrastructure simEnv sampleCluster
                                 stateInfraRich)))) = Some "us-east-1a".
Proof.
  destruct (reconcileInfrastructure_ready simEnv sampleCluster stateInfraRich adoptedRich
              "aws:///i-123" "us-east-1a" None None)
    as (Hok & _ & Hid & _ & Hfd).
  - vm_compute. reflexivity.
  - reflexivity.
  - vm_compute. reflexivity.
  - vm_compute. reflexivity.
  - discriminate.
  - vm_compute. reflexivity.
  - left. reflexivity.
  - vm_compute. reflexivity.
  - left. reflexivity.
  - split; [exact Hok | split; [exact Hid | exact Hfd]].
Defined.

(** Witness for X23: a fresh Machine whose infrastructure object does
    not exist yet. *)
Lemma reconcileInfrastructure_not_found_before_ready_witness :
  exists err,
    fst (reconcileInfrastructure simEnv sampleCluster stateFresh) = Err err
    /\ Cause err = RequeueAfterError externalReadyWait
    /\ isRequeueAfter err = true
    /\ Status (st_machine (snd (reconcileInfrastructure simEnv sampleCluster stateFresh)))
       = Status (st_machine stateFresh).
Proof.
  eapply (reconcileInfrastructure_not_found_before_ready simEnv sampleCluster stateFresh
            infraRef); reflexivity.
Defined.

(** Witness for X24: the infrastructure object is there, the patch is
    answered with the API server's generic not-found text, and the
    Machine is marked failed. *)
Lemma reconcileInfrastructure_escalation_witness :
  fst (reconcileInfrastructure (faultyEnv patchFault) sampleCluster stateInfraWasReady)
  = Err patchRefused
  /\ FailureReason
       (Status (st_machine (snd (reconcileInfrastructure (faultyEnv patchFault)
                                   sampleCluster stateInfraWasReady))))
     = Some InvalidConfigurationMachineError.
Proof.
  destruct (reconcileInfrastructure_escalation (faultyEnv patchFault) sampleCluster
              stateInfraWasReady patchRefused) as (Hf & Hesc & _).
  - vm_compute. reflexivity.
  - split; [exact Hf|]. apply Hesc; vm_compute; reflexivity.
Defined.

(** Witness for X25: the infrastructure object is being deleted. *)
Lemma reconcileInfrastructure_deleting_witness :
  reconcileInfrastructure simEnv sampleCluster stateProvidersDeleting
  = (Ok tt,
     snd (reconcileExternal simEnv sampleCluster InfrastructureRefPtr
            stateProvidersDeleting)).
Proof.
  apply (reconcileInfrastructure_deleting simEnv sampleCluster stateProvidersDeleting
           (adopted (deletingObject infraRef)));
    vm_compute; reflexivity.
Defined.

(** Witness for X27. *)
Lemma vanished_infrastructure_is_Failed_witness :
  Phase (Status (reconcilePhase 1700000100
                   (st_machine (snd (reconcileInfrastructure simEnv sampleCluster
                                       stateInfraVanished)))))
  = MachinePhaseFailed.
Proof.
  eapply (vanished_infrastructure_is_Failed simEnv sampleCluster stateInfraVanished
            infraRef); reflexivity.
Defined.
